(** * Feature extraction from chess games: [read_pgn.py]

    A shallow embedding of the feature extractor and of the game scanner
    of [read_pgn.py], with the properties of the extracted features and of
    the resulting dataset.

    Python integers are [Z]; Python dictionaries with string keys are
    stdpp's [gmap string _]; the chess library is the source's external
    collaborator: the board's contents are data, the rules of the game
    (attack sets, legal moves, mates, applying a move) and the built-in
    [int] are an interface, [RulesEngine]. *)

From Stdlib Require Import ZArith List Bool Ascii String Lia.
From stdpp Require Import gmap strings list fin_maps.

#[local] Open Scope string_scope.
#[local] Open Scope list_scope.
#[local] Open Scope Z_scope.

(** ** The board, as the chess library presents it *)

Module chess.

(** [chess.WHITE], [chess.BLACK] *)
Inductive Color := WHITE | BLACK.

(** [chess.PAWN] ... [chess.KING] *)
Inductive PieceType := PAWN | KNIGHT | BISHOP | ROOK | QUEEN | KING.

Record Piece := mkPiece { piece_type : PieceType; color : Color }.

Definition Color_eqb (a b : Color) : bool :=
  match a, b with
  | WHITE, WHITE | BLACK, BLACK => true
  | _, _ => false
  end.

Definition PieceType_eqb (a b : PieceType) : bool :=
  match a, b with
  | PAWN, PAWN | KNIGHT, KNIGHT | BISHOP, BISHOP
  | ROOK, ROOK | QUEEN, QUEEN | KING, KING => true
  | _, _ => false
  end.

Definition opposite (c : Color) : Color :=
  match c with WHITE => BLACK | BLACK => WHITE end.

(** A square is an integer, 0 (a1) to 63 (h8). *)
Definition Square := Z.

(** [chess.SQUARES] *)
Definition SQUARES : list Square := map Z.of_nat (seq 0 64).

(** [chess.square_file], [chess.square_rank], [chess.square] *)
Definition square_file (sq : Square) : Z := Z.land sq 7.
Definition square_rank (sq : Square) : Z := Z.shiftr sq 3.
Definition square (file_index rank_index : Z) : Square :=
  rank_index * 8 + file_index.

(** [chess.piece_name] *)
Definition piece_name (pt : PieceType) : string :=
  match pt with
  | PAWN => "pawn" | KNIGHT => "knight" | BISHOP => "bishop"
  | ROOK => "rook" | QUEEN => "queen" | KING => "king"
  end.

(** The position: what stands on each of the 64 squares, and whose turn
    it is.  Squares outside 0..63 are never consulted. *)
Record Board := mkBoard {
  piece_at : Square -> option Piece;
  turn : Color
}.

Definition holds (b : Board) (pt : PieceType) (c : Color) (sq : Square) : bool :=
  match piece_at b sq with
  | Some p => PieceType_eqb (piece_type p) pt && Color_eqb (color p) c
  | None => false
  end.

(** [board.piece_map()]: the occupied squares with their pieces, scanned
    from h8 down to a1. *)
Definition piece_map (b : Board) : list (Square * Piece) :=
  omap (fun sq => match piece_at b sq with
                  | Some p => Some (sq, p)
                  | None => None
                  end) (rev SQUARES).

(** [board.pieces(piece_type, color)]: the squares holding such a piece. *)
Definition pieces (b : Board) (pt : PieceType) (c : Color) : list Square :=
  filter (fun sq => Is_true (holds b pt c sq)) SQUARES.

(** [board.king(color)]: the square of the king of that color (the
    highest one, should there be several), or [None].  The library leaves
    promoted kings aside; only variants of the game have them. *)
Definition king (b : Board) (c : Color) : option Square :=
  last (pieces b KING c).

End chess.

Import chess.

(** ** The collaborators behind the extractor and the scanner *)

(** The rules of chess are not the program's: attack sets, the count of
    legal moves, check, mate and stalemate, and the application of a move
    are asked of the chess library.  So is the parsing of a decimal
    numeral, Python's [int], which fails with [ValueError]. *)
Class RulesEngine := {
  Move : Type;
  (** [board.push(move)] *)
  push : Board -> Move -> Board;
  (** [board.attackers(color, square)]: squares of the pieces of [color]
      that attack [square] *)
  attackers : Board -> Color -> Square -> list Square;
  (** [board.legal_moves.count()] *)
  legal_moves_count : Board -> Z;
  is_check : Board -> bool;
  is_checkmate : Board -> bool;
  is_stalemate : Board -> bool;
  (** [int(s)], [None] for [ValueError] *)
  py_int : string -> option Z
}.

(** ** Python values *)

(** The numbers a feature row holds: integers, and the float 0.5, which is
    the one float of the program. *)
Inductive Num := Int (z : Z) | Half.

#[global] Instance Num_eq_dec : EqDecision Num.
Proof. solve_decision. Defined.

(** Truth value of an [Optional[int]]: [None] and 0 are false. *)
Definition truthy_opt (o : option Z) : bool :=
  match o with
  | Some z => negb (z =? 0)
  | None => false
  end.

(** Truth value of a string: the empty string is false. *)
Definition truthy_str (s : string) : bool :=
  match s with
  | EmptyString => false
  | _ => true
  end.

(** [range(start, stop)] and [range(start, stop, -1)] *)
Definition range (start stop : Z) : list Z :=
  map (fun i => start + Z.of_nat i) (seq 0 (Z.to_nat (stop - start))).
Definition range_down (start stop : Z) : list Z :=
  map (fun i => start - Z.of_nat i) (seq 0 (Z.to_nat (start - stop))).

(** [int(b)] of a boolean *)
Definition int_of_bool (b : bool) : Z := if b then 1 else 0.

(** [sum] *)
Definition sum (l : list Z) : Z := fold_left Z.add l 0.

(** [d.update(e)]: the keys of [e] are written over those of [d]. *)
Definition update {V} (d e : gmap string V) : gmap string V := e ∪ d.

(** ** The feature extractor *)

Section Extractor.
Context `{E : RulesEngine}.

Definition piece_values (pt : PieceType) : Z :=
  match pt with
  | PAWN => 1 | KNIGHT => 3 | BISHOP => 3
  | ROOK => 5 | QUEEN => 9 | KING => 0
  end.

(** [sum(piece_values[piece.piece_type] for piece in
    board.piece_map().values() if piece.color == c)] *)
Definition material (board : Board) (c : Color) : Z :=
  sum (map (fun sp => piece_values (piece_type (snd sp)))
           (filter (fun sp : Square * Piece => Is_true (Color_eqb (color (snd sp)) c))
                   (piece_map board))).

Definition get_material_features (board : Board) : gmap string Num :=
  let white_material := material board WHITE in
  let black_material := material board BLACK in
  <["material_diff" := Int (white_material - black_material)]>
    (<["black_material" := Int black_material]>
       (<["white_material" := Int white_material]> ∅)).

(** One turn of the loop of [get_piece_count_features]. *)
Definition piece_count_step (board : Board) (features : gmap string Num)
    (pt : PieceType) : gmap string Num :=
  let white_count := Z.of_nat (length (pieces board pt WHITE)) in
  let black_count := Z.of_nat (length (pieces board pt BLACK)) in
  let piece_name := piece_name pt in
  <["black_" +:+ piece_name +:+ "s" := Int black_count]>
    (<["white_" +:+ piece_name +:+ "s" := Int white_count]> features).

Definition get_piece_count_features (board : Board) : gmap string Num :=
  fold_left (piece_count_step board) [PAWN; KNIGHT; BISHOP; ROOK; QUEEN] ∅.

(** The ranks in front of a king: higher ranks for white, lower ranks for
    black. *)
Definition ranks_ahead (c : Color) (king_rank : Z) : list Z :=
  match c with
  | WHITE => range (king_rank + 1) 8
  | BLACK => range_down (king_rank - 1) (-1)
  end.

(** The inner loop: walk the ranks of one file, add one for the first
    pawn of the color and leave the loop. *)
Fixpoint scan_file (board : Board) (c : Color) (check_file : Z)
    (ranks : list Z) (pawn_shield : Z) : Z :=
  match ranks with
  | [] => pawn_shield
  | rank :: ranks' =>
      let sq := square check_file rank in
      match piece_at board sq with
      | Some piece =>
          if PieceType_eqb (piece_type piece) PAWN && Color_eqb (color piece) c
          then pawn_shield + 1
          else scan_file board c check_file ranks' pawn_shield
      | None => scan_file board c check_file ranks' pawn_shield
      end
  end.

(** The outer loop, over the king's file and the two next to it. *)
Definition shield_step (board : Board) (c : Color) (king_file king_rank : Z)
    (pawn_shield : Z) (file_offset : Z) : Z :=
  let check_file := king_file + file_offset in
  if (0 <=? check_file) && (check_file <=? 7)
  then scan_file board c check_file (ranks_ahead c king_rank) pawn_shield
  else pawn_shield.

Definition pawn_shield_from (board : Board) (c : Color) (king_square : Square) : Z :=
  let king_file := square_file king_square in
  let king_rank := square_rank king_square in
  fold_left (shield_step board c king_file king_rank) [-1; 0; 1] 0.

Definition color_name (c : Color) : string :=
  match c with WHITE => "white" | BLACK => "black" end.

(** One of the two [if ..._king_square:] blocks of
    [get_king_safety_features]. *)
Definition king_safety_of (board : Board) (c : Color)
    (features : gmap string Num) : gmap string Num :=
  let king_square := king board c in
  if truthy_opt king_square then
    match king_square with
    | Some ksq =>
        let king_attacks := Z.of_nat (length (attackers board (opposite c) ksq)) in
        <[color_name c +:+ "_pawn_shield" := Int (pawn_shield_from board c ksq)]>
          (<[color_name c +:+ "_king_attackers" := Int king_attacks]> features)
    | None => features
    end
  else
    <[color_name c +:+ "_pawn_shield" := Int 0]>
      (<[color_name c +:+ "_king_attackers" := Int 0]> features).

Definition get_king_safety_features (board : Board) : gmap string Num :=
  king_safety_of board BLACK (king_safety_of board WHITE ∅).

Definition get_mobility_features (board : Board) : gmap string Num :=
  <["legal_moves" := Int (legal_moves_count board)]>
    (<["to_move" := Int (if Color_eqb (turn board) WHITE then 1 else 0)]> ∅).

Definition get_game_state_features (board : Board) : gmap string Num :=
  <["is_stalemate" := Int (int_of_bool (is_stalemate board))]>
    (<["is_checkmate" := Int (int_of_bool (is_checkmate board))]>
       (<["is_check" := Int (int_of_bool (is_check board))]> ∅)).

Definition extract_board_features (board : Board) : gmap string Num :=
  let features := ∅ in
  let features := update features (get_material_features board) in
  let features := update features (get_piece_count_features board) in
  let features := update features (get_king_safety_features board) in
  let features := update features (get_mobility_features board) in
  let features := update features (get_game_state_features board) in
  features.

End Extractor.

(** ** The game scanner *)

Section Scanner.
Context `{E : RulesEngine}.

(** A game as the reader returns it: [game.headers], [game.board()] (the
    position the game starts from) and [game.mainline_moves()]. *)
Record Game := mkGame {
  headers : gmap string string;
  board : Board;
  mainline_moves : list Move
}.

(** [headers.get(key, dflt)] *)
Definition get (h : gmap string string) (key dflt : string) : string :=
  default dflt (h !! key).

(** The [if]/[elif] chain on the result: the label, or [None] where the
    source goes on to the next game. *)
Definition target_of (result : string) : option Num :=
  if String.eqb result "1-0" then Some (Int 1)
  else if String.eqb result "0-1" then Some (Int 0)
  else if String.eqb result "1/2-1/2" then Some Half
  else None.

(** The replay loop: [for move in game.mainline_moves()], left as soon as
    [move_count >= target_move * 2]. *)
Fixpoint replay (target_move : Z) (moves : list Move) (board : Board)
    (move_count : Z) : Board * Z :=
  match moves with
  | [] => (board, move_count)
  | move :: moves' =>
      if move_count >=? target_move * 2 then (board, move_count)
      else replay target_move moves' (push board move) (move_count + 1)
  end.

(** The body of the [while] loop for one game: the row to append, or
    [None] where the source says [continue]. *)
Definition process_game (target_move : Z) (game : Game) : option (gmap string Num) :=
  let result := get (headers game) "Result" "*" in
  if String.eqb result "*" then None else
  match target_of result with
  | None => None
  | Some target =>
      let white_elo := get (headers game) "WhiteElo" "" in
      let black_elo := get (headers game) "BlackElo" "" in
      if negb (truthy_str white_elo) || negb (truthy_str black_elo)
         || String.eqb white_elo "?" || String.eqb black_elo "?"
      then None else
      match py_int white_elo with
      | None => None
      | Some white_elo =>
          match py_int black_elo with
          | None => None
          | Some black_elo =>
              let '(board, move_count) :=
                replay target_move (mainline_moves game) (board game) 0 in
              if move_count <? target_move * 2 then None else
              let features := extract_board_features board in
              let features := <["white_elo" := Int white_elo]> features in
              let features := <["black_elo" := Int black_elo]> features in
              let features := <["elo_diff" := Int (white_elo - black_elo)]> features in
              let features := <["result" := target]> features in
              Some features
          end
      end
  end.

(** The [while True] loop over the stream of games.  The state is the
    stream still to be read, [games_data] and [games_processed]; the
    result is [games_data] and what was left unread. *)
Fixpoint scan (target_move : Z) (max_games : option Z) (text_stream : list Game)
    (games_data : list (gmap string Num)) (games_processed : Z)
    : list (gmap string Num) * list Game :=
  match text_stream with
  | [] => (games_data, [])
  | game :: text_stream' =>
      match process_game target_move game with
      | None => scan target_move max_games text_stream' games_data games_processed
      | Some features =>
          let games_data := games_data ++ [features] in
          let games_processed := games_processed + 1 in
          if truthy_opt max_games && (games_processed >=? default 0 max_games)
          then (games_data, text_stream')
          else scan target_move max_games text_stream' games_data games_processed
      end
  end.

(** [process_pgn_file], on the games its reader finds in the file. *)
Definition process_pgn_file (text_stream : list Game) (target_move : Z)
    (max_games : option Z) : list (gmap string Num) :=
  fst (scan target_move max_games text_stream [] 0).

(** What [process_pgn_file] leaves unread. *)
Definition unread (text_stream : list Game) (target_move : Z)
    (max_games : option Z) : list Game :=
  snd (scan target_move max_games text_stream [] 0).

End Scanner.

Arguments Game {E}.
Arguments mkGame {E}.

(** ** Positions and a small engine to run the program on *)

Module Positions.

(** A board from the list of its pieces. *)
Definition board_of (l : list (Square * Piece)) (t : Color) : Board :=
  mkBoard (fun sq => snd <$> find (fun sp : Square * Piece => fst sp =? sq) l) t.

Definition back_rank : list PieceType :=
  [ROOK; KNIGHT; BISHOP; QUEEN; KING; BISHOP; KNIGHT; ROOK].

(** [chess.Board()]: the standard starting position, white to move. *)
Definition starting_piece_at (sq : Square) : option Piece :=
  let r := square_rank sq in
  let f := square_file sq in
  if r =? 0 then (fun pt => mkPiece pt WHITE) <$> back_rank !! Z.to_nat f
  else if r =? 1 then Some (mkPiece PAWN WHITE)
  else if r =? 6 then Some (mkPiece PAWN BLACK)
  else if r =? 7 then (fun pt => mkPiece pt BLACK) <$> back_rank !! Z.to_nat f
  else None.

Definition starting_board : Board := mkBoard starting_piece_at WHITE.

Definition A1 : Square := 0.
Definition B2 : Square := 9.
Definition A8 : Square := 56.
Definition H8 : Square := 63.

(** White king on a1 behind a pawn on b2; black rook on a8 on the open
    a-file, black king on h8; white to move. *)
Definition cornered_king : Board :=
  board_of [(A1, mkPiece KING WHITE); (B2, mkPiece PAWN WHITE);
            (A8, mkPiece ROOK BLACK); (H8, mkPiece KING BLACK)] WHITE.

(** The same position without the white king. *)
Definition no_white_king : Board :=
  board_of [(B2, mkPiece PAWN WHITE);
            (A8, mkPiece ROOK BLACK); (H8, mkPiece KING BLACK)] WHITE.

(** No piece between two squares of one line. *)
Definition clear_path (b : Board) (from : Square) (df dr : Z) : bool :=
  forallb (fun k => match piece_at b (square (square_file from + k * Z.sgn df)
                                             (square_rank from + k * Z.sgn dr)) with
                    | Some _ => false
                    | None => true
                    end)
          (range 1 (Z.max (Z.abs df) (Z.abs dr))).

(** The piece on [from] attacks the square [to]. *)
Definition attacks (b : Board) (from to : Square) : bool :=
  match piece_at b from with
  | None => false
  | Some p =>
      let df := square_file to - square_file from in
      let dr := square_rank to - square_rank from in
      let straight := xorb (df =? 0) (dr =? 0) in
      let diagonal := (Z.abs df =? Z.abs dr) && negb (df =? 0) in
      match piece_type p with
      | PAWN => (Z.abs df =? 1)
                && (dr =? match color p with WHITE => 1 | BLACK => -1 end)
      | KNIGHT => ((Z.abs df =? 1) && (Z.abs dr =? 2))
                  || ((Z.abs df =? 2) && (Z.abs dr =? 1))
      | BISHOP => diagonal && clear_path b from df dr
      | ROOK => straight && clear_path b from df dr
      | QUEEN => (straight || diagonal) && clear_path b from df dr
      | KING => Z.max (Z.abs df) (Z.abs dr) =? 1
      end
  end.

Definition has_color (b : Board) (c : Color) (sq : Square) : bool :=
  match piece_at b sq with
  | Some p => Color_eqb (color p) c
  | None => false
  end.

Definition digit_of (a : ascii) : option Z :=
  let n := Z.of_nat (nat_of_ascii a) in
  if (48 <=? n) && (n <=? 57) then Some (n - 48) else None.

Fixpoint digits (s : string) (acc : Z) : option Z :=
  match s with
  | EmptyString => Some acc
  | String a s' =>
      match digit_of a with
      | Some d => digits s' (10 * acc + d)
      | None => None
      end
  end.

(** An engine for running the program on positions: attack sets by the
    geometry of the pieces, a move as a pair of squares (the piece on the
    first goes to the second), [int] on plain decimal numerals.  The
    extractor only copies the answers on mobility and mates; they are
    constant here. *)
Definition engine : RulesEngine := {|
  Move := Square * Square;
  push b m :=
    mkBoard (fun sq => if sq =? snd m then piece_at b (fst m)
                       else if sq =? fst m then None
                       else piece_at b sq)
            (opposite (turn b));
  attackers b c sq :=
    filter (fun s => Is_true (has_color b c s && attacks b s sq)) SQUARES;
  legal_moves_count _ := 20;
  is_check b :=
    match king b (turn b) with
    | Some ksq => existsb (fun s => has_color b (opposite (turn b)) s && attacks b s ksq) SQUARES
    | None => false
    end;
  is_checkmate _ := false;
  is_stalemate _ := false;
  py_int s := match s with EmptyString => None | _ => digits s 0 end
|}.

(** Both king's knights go out and come back: four half-moves that lead
    back to the position they start from. *)
Definition shuffle : list (Square * Square) := [(6, 21); (62, 45); (21, 6); (45, 62)].

(** Forty half-moves. *)
Definition forty_moves : list (Square * Square) := concat (replicate 10 shuffle).

Definition game_with (result white_elo black_elo : string)
    (moves : list (Square * Square)) : @Game engine :=
  @mkGame engine
    (<["BlackElo" := black_elo]> (<["WhiteElo" := white_elo]> {["Result" := result]}))
    starting_board moves.

(** A white win and a draw with both ratings and forty half-moves; a
    black win whose white rating is the placeholder. *)
Definition game_a := game_with "1-0" "1500" "1480" forty_moves.
Definition game_b := game_with "1/2-1/2" "1700" "1710" forty_moves.
Definition game_c := game_with "0-1" "?" "1600" forty_moves.
Definition three_games := [game_a; game_b; game_c].

(** An unfinished game, and one that ends after four half-moves. *)
Definition game_unfinished := game_with "*" "1500" "1480" forty_moves.
Definition game_short := game_with "1-0" "1500" "1480" shuffle.

End Positions.

Import Positions.

(** ** Vocabulary of the statements *)

Section Vocabulary.
Context `{E : RulesEngine}.

(** The value the king-safety block writes for the attackers of the king
    of [c]; which branch writes it is decided by the truth value of the
    king square. *)
Definition king_attackers_value (b : Board) (c : Color) : Z :=
  match king b c with
  | Some ksq =>
      if ksq =? 0 then 0
      else Z.of_nat (length (attackers b (opposite c) ksq))
  | None => 0
  end.

(** Likewise for the pawn shield. *)
Definition pawn_shield_value (b : Board) (c : Color) : Z :=
  match king b c with
  | Some ksq => if ksq =? 0 then 0 else pawn_shield_from b c ksq
  | None => 0
  end.

(** The color has no king on the 64 squares of the board. *)
Definition no_king (b : Board) (c : Color) : Prop :=
forall sq : Square, 0 <= sq < 64 -> holds b KING c sq = false.

(** The material of a color in words: over the squares of the board, the
    values of the pieces of that color. *)
Definition material_in_words (b : Board) (c : Color) : Z :=
  sum (map (fun sq => match piece_at b sq with
                      | Some p => if Color_eqb (color p) c
                                  then piece_values (piece_type p) else 0
                      | None => 0
                      end) SQUARES).

(** A pawn of color [c] stands on the square of that file and rank. *)
Definition own_pawn (b : Board) (c : Color) (file_index rank_index : Z) : bool :=
  holds b PAWN c (square file_index rank_index).

(** The files the shield is counted on: the king's and its neighbours,
    as far as they are on the board. *)
Definition shield_files (king_square : Square) : list Z :=
  List.filter (fun f => (0 <=? f) && (f <=? 7))
              (map (fun file_offset => square_file king_square + file_offset) [-1; 0; 1]).

(** What one file adds to the shield: one if a pawn of the color stands
    on it ahead of the king. *)
Definition file_shield (b : Board) (c : Color) (king_rank file_index : Z) : Z :=
  int_of_bool (existsb (own_pawn b c file_index) (ranks_ahead c king_rank)).

(** The keys of the extracted mapping. *)
Definition feature_keys : gset string :=
  list_to_set
    [ "white_material"; "black_material"; "material_diff";
      "white_pawns"; "black_pawns"; "white_knights"; "black_knights";
      "white_bishops"; "black_bishops"; "white_rooks"; "black_rooks";
      "white_queens"; "black_queens";
      "white_king_attackers"; "white_pawn_shield";
      "black_king_attackers"; "black_pawn_shield";
      "to_move"; "legal_moves";
      "is_check"; "is_checkmate"; "is_stalemate" ].

(** The position a game is in after the first [2 * target_move] of its
    moves (all of them if it has fewer, none if the number is negative). *)
Definition snapshot (target_move : Z) (game : Game) : Board :=
  fold_left push (take (Z.to_nat (target_move * 2)) (mainline_moves game)) (board game).

(** The extracted mapping with the four metadata fields the scanner adds. *)
Definition row_of (features : gmap string Num) (white_elo black_elo : Z)
    (target : Num) : gmap string Num :=
  <["result" := target]>
    (<["elo_diff" := Int (white_elo - black_elo)]>
       (<["black_elo" := Int black_elo]>
          (<["white_elo" := Int white_elo]> features))).

(** A rating header the scanner accepts: present, not empty, not the
    placeholder, and a numeral for [int]. *)
Definition rating (h : gmap string string) (key : string) (elo : Z) : Prop :=
  exists s, h !! key = Some s /\ s <> "" /\ s <> "?" /\ py_int s = Some elo.

(** A result header that names no outcome: absent, ["*"], or anything
    but the three outcomes. *)
Definition no_outcome (h : gmap string string) : Prop :=
  h !! "Result" = None \/ h !! "Result" = Some "*"
  \/ exists r, h !! "Result" = Some r /\ r <> "1-0" /\ r <> "0-1" /\ r <> "1/2-1/2".

(** A rating header the scanner turns down: missing, empty, the
    placeholder, or not a numeral for [int]. *)
Definition bad_rating (h : gmap string string) (key : string) : Prop :=
  h !! key = None \/ h !! key = Some "" \/ h !! key = Some "?"
  \/ exists s, h !! key = Some s /\ py_int s = None.

(** The games [process_pgn_file] turns into a row. *)
Definition qualifies (target_move : Z) (game : Game) : Prop :=
  is_Some (process_game target_move game).

(** The keys of a row of the dataset. *)
Definition row_keys : gset string :=
  feature_keys ∪ list_to_set ["white_elo"; "black_elo"; "elo_diff"; "result"].

End Vocabulary.

(** ** Vocabulary of the further properties *)

(** The key of a piece-count feature: [f'white_{piece_name}s'] and
    [f'black_{piece_name}s']. *)
Definition count_key (c : Color) (pt : PieceType) : string :=
color_name c +:+ "_" +:+ piece_name pt +:+ "s".

(** The number of pieces of a type and color on the board. *)
Definition count (b : Board) (pt : PieceType) (c : Color) : Z :=
Z.of_nat (length (pieces b pt c)).

(** The material of a color from its piece counts. *)
Definition material_by_counts (b : Board) (c : Color) : Z :=
1 * count b PAWN c + 3 * count b KNIGHT c + 3 * count b BISHOP c
+ 5 * count b ROOK c + 9 * count b QUEEN c.


Definition with_moves `{E : RulesEngine} (game : Game) (moves : list Move) : Game :=
mkGame (headers game) (board game) moves.

Module MorePositions.

(** White king on h8 behind nothing; white pawns on g7 and h7 beside and
    behind it; black king on a1. *)
Definition king_on_h8 : Board :=
board_of [(63, mkPiece KING WHITE); (54, mkPiece PAWN WHITE);
          (55, mkPiece PAWN WHITE); (0, mkPiece KING BLACK)] BLACK.

(** White king on a2 with pawns on a3, b3 and h3; black king on h8. *)
Definition king_on_a2 : Board :=
board_of [(8, mkPiece KING WHITE); (16, mkPiece PAWN WHITE);
          (17, mkPiece PAWN WHITE); (23, mkPiece PAWN WHITE);
          (63, mkPiece KING BLACK)] WHITE.

(** The starting position after the knight move g1-f3. *)
Definition after_Nf3 : Board := @push engine starting_board (6, 21).


Definition game_a_longer : @Game engine :=
@with_moves engine game_a (forty_moves ++ shuffle).

End MorePositions.

Import MorePositions.

(** * Properties *)

(** ** Lists and sums *)

Lemma sum_from (l : list Z) (a : Z) : fold_left Z.add l a = a + sum l.
Proof.
  unfold sum. revert a. induction l as [|x l IH]; intros a; simpl.
  - lia.
  - rewrite (IH (a + x)), (IH (0 + x)). lia.
Qed.

Lemma sum_cons (x : Z) (l : list Z) : sum (x :: l) = x + sum l.
Proof. unfold sum at 1. simpl. rewrite sum_from. lia. Qed.

Lemma sum_app (l k : list Z) : sum (l ++ k) = sum l + sum k.
Proof.
  induction l as [|x l IH]; simpl.
  - reflexivity.
  - rewrite !sum_cons, IH. lia.
Qed.

Lemma sum_rev (l : list Z) : sum (rev l) = sum l.
Proof.
  induction l as [|x l IH]; simpl.
  - reflexivity.
  - rewrite sum_app, IH, !sum_cons. unfold sum at 2. simpl. lia.
Qed.

(** ** The shape of the extracted mapping *)

Section ExtractorFacts.
Context `{E : RulesEngine}.

Lemma king_safety_of_eq (b : Board) (c : Color) (features : gmap string Num) :
  king_safety_of b c features =
  <[color_name c +:+ "_pawn_shield" := Int (pawn_shield_value b c)]>
    (<[color_name c +:+ "_king_attackers" := Int (king_attackers_value b c)]> features).
Proof.
  unfold king_safety_of, king_attackers_value, pawn_shield_value, truthy_opt.
  destruct (king b c) as [ksq|]; [|reflexivity].
  destruct (ksq =? 0); reflexivity.
Qed.

Lemma extract_board_features_eq (b : Board) :
  extract_board_features b =
  list_to_map
    [ ("white_material", Int (material b WHITE));
      ("black_material", Int (material b BLACK));
      ("material_diff", Int (material b WHITE - material b BLACK));
      ("white_pawns", Int (Z.of_nat (length (pieces b PAWN WHITE))));
      ("black_pawns", Int (Z.of_nat (length (pieces b PAWN BLACK))));
      ("white_knights", Int (Z.of_nat (length (pieces b KNIGHT WHITE))));
      ("black_knights", Int (Z.of_nat (length (pieces b KNIGHT BLACK))));
      ("white_bishops", Int (Z.of_nat (length (pieces b BISHOP WHITE))));
      ("black_bishops", Int (Z.of_nat (length (pieces b BISHOP BLACK))));
      ("white_rooks", Int (Z.of_nat (length (pieces b ROOK WHITE))));
      ("black_rooks", Int (Z.of_nat (length (pieces b ROOK BLACK))));
      ("white_queens", Int (Z.of_nat (length (pieces b QUEEN WHITE))));
      ("black_queens", Int (Z.of_nat (length (pieces b QUEEN BLACK))));
      ("white_king_attackers", Int (king_attackers_value b WHITE));
      ("white_pawn_shield", Int (pawn_shield_value b WHITE));
      ("black_king_attackers", Int (king_attackers_value b BLACK));
      ("black_pawn_shield", Int (pawn_shield_value b BLACK));
      ("to_move", Int (if Color_eqb (turn b) WHITE then 1 else 0));
      ("legal_moves", Int (legal_moves_count b));
      ("is_check", Int (int_of_bool (is_check b)));
      ("is_checkmate", Int (int_of_bool (is_checkmate b)));
      ("is_stalemate", Int (int_of_bool (is_stalemate b))) ].
Proof.
  unfold extract_board_features, update, get_material_features,
    get_piece_count_features, get_king_safety_features,
    get_mobility_features, get_game_state_features.
  rewrite !king_safety_of_eq. unfold piece_count_step. cbn [fold_left chess.piece_name color_name].
  generalize (material b WHITE) (material b BLACK)
    (king_attackers_value b WHITE) (pawn_shield_value b WHITE)
    (king_attackers_value b BLACK) (pawn_shield_value b BLACK)
    (legal_moves_count b) (is_check b) (is_checkmate b) (is_stalemate b) (turn b).
  intros wm bm wa ws ba bs lm ck cm sm t.
  generalize (pieces b). intros p.
  reflexivity.
Qed.

Lemma dom_extract_board_features (b : Board) :
  dom (extract_board_features b) = feature_keys.
Proof. rewrite extract_board_features_eq. reflexivity. Qed.

Lemma lookup_material (b : Board) :
  extract_board_features b !! "white_material" = Some (Int (material b WHITE))
  /\ extract_board_features b !! "black_material" = Some (Int (material b BLACK))
  /\ extract_board_features b !! "material_diff"
     = Some (Int (material b WHITE - material b BLACK)).
Proof. rewrite extract_board_features_eq. repeat split; reflexivity. Qed.

Lemma lookup_king_safety (b : Board) (c : Color) :
  extract_board_features b !! (color_name c +:+ "_king_attackers")
    = Some (Int (king_attackers_value b c))
  /\ extract_board_features b !! (color_name c +:+ "_pawn_shield")
     = Some (Int (pawn_shield_value b c)).
Proof. rewrite extract_board_features_eq. destruct c; split; reflexivity. Qed.

(** *** The king square *)

Lemma elem_of_SQUARES (sq : Square) : sq ∈ SQUARES <-> 0 <= sq < 64.
Proof.
unfold SQUARES. rewrite list_elem_of_fmap. split.
- intros (i & -> & Hi). apply elem_of_seq in Hi. lia.
- intros Hsq. exists (Z.to_nat sq). split; [lia|]. apply elem_of_seq. lia.
Qed.

Lemma king_None (b : Board) (c : Color) : king b c = None <-> no_king b c.
Proof.
unfold king, pieces, no_king. rewrite last_None. split.
- intros Hnil sq Hsq. destruct (holds b KING c sq) eqn:Hh; [|done].
  exfalso. eapply (filter_nil_not_elem_of _ _ sq Hnil).
  + rewrite Hh. exact I.
  + by apply elem_of_SQUARES.
- intros Hall.
  destruct (filter (fun sq => Is_true (holds b KING c sq)) SQUARES) as [|sq l] eqn:Hf;
    [done|].
  assert (sq ∈ filter (fun sq => Is_true (holds b KING c sq)) SQUARES) as Hin
      by (rewrite Hf; left).
  apply list_elem_of_filter in Hin as [Hh Hin].
  apply elem_of_SQUARES in Hin. rewrite (Hall sq Hin) in Hh. done.
Qed.

Lemma king_Some (b : Board) (c : Color) (sq : Square) :
king b c = Some sq -> 0 <= sq < 64 /\ holds b KING c sq = true.
Proof.
unfold king, pieces. intros Hlast%last_Some_elem_of.
apply list_elem_of_filter in Hlast as [Hh Hin].
split; [by apply elem_of_SQUARES | by apply Is_true_true].
Qed.

(** *** Material *)

Lemma material_over (b : Board) (c : Color) (l : list Square) :
  sum (map (fun sp : Square * Piece => piece_values (piece_type (snd sp)))
           (filter (fun sp : Square * Piece => Is_true (Color_eqb (color (snd sp)) c))
                   (omap (fun sq => match piece_at b sq with
                                    | Some p => Some (sq, p)
                                    | None => None
                                    end) l)))
  = sum (map (fun sq => match piece_at b sq with
                        | Some p => if Color_eqb (color p) c
                                    then piece_values (piece_type p) else 0
                        | None => 0
                        end) l).
Proof.
  induction l as [|sq l IH]; [reflexivity|].
  cbn [omap list_omap map]. rewrite sum_cons, <- IH.
  destruct (piece_at b sq) as [p|]; [|reflexivity].
  rewrite filter_cons. cbn [snd].
  destruct (Color_eqb (color p) c).
  - rewrite decide_True by exact I. cbn [map snd]. rewrite sum_cons. reflexivity.
  - rewrite decide_False by (intros []). lia.
Qed.

Lemma material_eq (b : Board) (c : Color) :
  material b c = material_in_words b c.
Proof.
  unfold material, piece_map, material_in_words.
  rewrite material_over, map_rev, sum_rev. reflexivity.
Qed.

(** *** The pawn shield *)

Lemma scan_file_eq (b : Board) (c : Color) (check_file : Z) (ranks : list Z) (acc : Z) :
  scan_file b c check_file ranks acc
  = acc + int_of_bool (existsb (own_pawn b c check_file) ranks).
Proof.
  induction ranks as [|rank ranks IH]; cbn [scan_file existsb].
  - cbn. lia.
  - unfold own_pawn at 1, holds.
    destruct (piece_at b (square check_file rank)) as [p|]; [|exact IH].
    destruct (PieceType_eqb (piece_type p) PAWN && Color_eqb (color p) c).
    + reflexivity.
    + exact IH.
Qed.

Lemma shield_step_eq (b : Board) (c : Color) (king_file king_rank acc file_offset : Z) :
  shield_step b c king_file king_rank acc file_offset
  = acc + (if (0 <=? king_file + file_offset) && (king_file + file_offset <=? 7)
           then file_shield b c king_rank (king_file + file_offset) else 0).
Proof.
  unfold shield_step, file_shield. rewrite scan_file_eq.
  destruct ((0 <=? king_file + file_offset) && (king_file + file_offset <=? 7)); lia.
Qed.

Lemma pawn_shield_from_eq (b : Board) (c : Color) (ksq : Square) :
  pawn_shield_from b c ksq
  = sum (map (file_shield b c (square_rank ksq)) (shield_files ksq)).
Proof.
  unfold pawn_shield_from, shield_files. cbn [fold_left map List.filter].
  rewrite !shield_step_eq.
  destruct ((0 <=? square_file ksq + -1) && (square_file ksq + -1 <=? 7));
    destruct ((0 <=? square_file ksq + 0) && (square_file ksq + 0 <=? 7));
    destruct ((0 <=? square_file ksq + 1) && (square_file ksq + 1 <=? 7));
    cbn [map]; rewrite ?sum_cons; unfold sum; cbn [fold_left]; lia.
Qed.

Lemma file_shield_range (b : Board) (c : Color) (king_rank f : Z) :
  0 <= file_shield b c king_rank f <= 1.
Proof.
  unfold file_shield.
  destruct (existsb (own_pawn b c f) (ranks_ahead c king_rank)); cbn; lia.
Qed.

Lemma shield_files_length (ksq : Square) : (length (shield_files ksq) <= 3)%nat.
Proof.
  unfold shield_files.
  etransitivity; [apply List.filter_length_le|]. reflexivity.
Qed.

Lemma sum_file_shield_range (b : Board) (c : Color) (king_rank : Z) (files : list Z) :
  0 <= sum (map (file_shield b c king_rank) files) <= Z.of_nat (length files).
Proof.
  induction files as [|f files IH]; cbn [map length].
  - unfold sum. cbn. lia.
  - rewrite sum_cons. pose proof (file_shield_range b c king_rank f). lia.
Qed.

Lemma pawn_shield_from_range (b : Board) (c : Color) (ksq : Square) :
  0 <= pawn_shield_from b c ksq <= 3.
Proof.
  rewrite pawn_shield_from_eq.
  pose proof (sum_file_shield_range b c (square_rank ksq) (shield_files ksq)).
  pose proof (shield_files_length ksq). lia.
Qed.

Lemma pawn_shield_value_range (b : Board) (c : Color) :
  0 <= pawn_shield_value b c <= 3.
Proof.
  unfold pawn_shield_value.
  destruct (king b c) as [ksq|]; [|lia].
  destruct (ksq =? 0); [lia|]. apply pawn_shield_from_range.
Qed.

Lemma ranks_ahead_white (king_rank r : Z) :
  In r (ranks_ahead WHITE king_rank) <-> king_rank < r <= 7.
Proof.
  unfold ranks_ahead, range. rewrite in_map_iff. split.
  - intros (i & <- & Hi). apply in_seq in Hi. lia.
  - intros Hr. exists (Z.to_nat (r - (king_rank + 1))). split; [lia|].
    apply in_seq. lia.
Qed.

Lemma ranks_ahead_black (king_rank r : Z) :
  In r (ranks_ahead BLACK king_rank) <-> 0 <= r < king_rank.
Proof.
  unfold ranks_ahead, range_down. rewrite in_map_iff. split.
  - intros (i & <- & Hi). apply in_seq in Hi. lia.
  - intros Hr. exists (Z.to_nat (king_rank - 1 - r)). split; [lia|].
    apply in_seq. lia.
Qed.

End ExtractorFacts.

(** ** The scanner, game by game *)

Section ScannerFacts.
Context `{E : RulesEngine}.

Lemma replay_eq (target_move : Z) (moves : list Move) :
  forall (b : Board) (n : Z),
    replay target_move moves b n
    = (fold_left push (take (Z.to_nat (target_move * 2 - n)) moves) b,
       n + Z.of_nat (length (take (Z.to_nat (target_move * 2 - n)) moves))).
Proof.
  induction moves as [|move moves IH]; intros b n; cbn [replay].
  - rewrite take_nil. cbn. f_equal. lia.
  - destruct (Z.geb_spec n (target_move * 2)) as [Hge|Hlt].
    + replace (Z.to_nat (target_move * 2 - n)) with 0%nat by lia.
      cbn. f_equal. lia.
    + rewrite IH.
      replace (Z.to_nat (target_move * 2 - n))
        with (S (Z.to_nat (target_move * 2 - (n + 1)))) by lia.
      cbn [take fold_left length]. f_equal. lia.
Qed.

Lemma replay_from_start (target_move : Z) (game : Game) :
  replay target_move (mainline_moves game) (board game) 0
  = (snapshot target_move game,
     Z.of_nat (Nat.min (Z.to_nat (target_move * 2)) (length (mainline_moves game)))).
Proof.
  rewrite replay_eq. unfold snapshot.
  replace (target_move * 2 - 0) with (target_move * 2) by lia.
  rewrite length_take. f_equal.
Qed.

Lemma truthy_str_false (s : string) : truthy_str s = false <-> s = "".
Proof. destruct s; cbn; split; congruence. Qed.

Lemma target_of_Some (result : string) (target : Num) :
  target_of result = Some target <->
  (result = "1-0" /\ target = Int 1) \/ (result = "0-1" /\ target = Int 0)
  \/ (result = "1/2-1/2" /\ target = Half).
Proof.
  unfold target_of.
  destruct (String.eqb_spec result "1-0") as [->|H1];
    [split; [intros [= <-]; auto | intros [[_ ->]|[[? _]|[? _]]]; done]|].
  destruct (String.eqb_spec result "0-1") as [->|H2];
    [split; [intros [= <-]; auto | intros [[? _]|[[_ ->]|[? _]]]; done]|].
  destruct (String.eqb_spec result "1/2-1/2") as [->|H3];
    [split; [intros [= <-]; auto | intros [[? _]|[[? _]|[_ ->]]]; done]|].
  split; [done|]. intros [[? _]|[[? _]|[? _]]]; done.
Qed.

Lemma get_rating (h : gmap string string) (key : string) (elo : Z) :
  rating h key elo <->
  truthy_str (get h key "") = true /\ String.eqb (get h key "") "?" = false
  /\ py_int (get h key "") = Some elo.
Proof.
  unfold rating, get. split.
  - intros (s & -> & Hne & Hq & Hint). cbn [default]. repeat split; [| |done].
    + destruct s; [done|reflexivity].
    + by apply String.eqb_neq.
  - intros (Ht & Hq & Hint). destruct (h !! key) as [s|]; cbn [default] in *; [|done].
    exists s. repeat split; [|by apply String.eqb_neq|done].
    intros ->. done.
Qed.

(** What it takes for a game to give a row, and which row. *)
Lemma process_game_Some (target_move : Z) (game : Game) (row : gmap string Num) :
  process_game target_move game = Some row <->
  exists (target : Num) (white_elo black_elo : Z),
    target_of (get (headers game) "Result" "*") = Some target
    /\ rating (headers game) "WhiteElo" white_elo
    /\ rating (headers game) "BlackElo" black_elo
    /\ target_move * 2 <= Z.of_nat (length (mainline_moves game))
    /\ row = row_of (extract_board_features (snapshot target_move game))
                    white_elo black_elo target.
Proof.
  unfold process_game. rewrite replay_from_start.
  setoid_rewrite get_rating.
  destruct (String.eqb_spec (get (headers game) "Result" "*") "*") as [Hstar|Hstar].
  { rewrite Hstar. split; [done|]. intros (t & w & b & Ht & _). done. }
  destruct (target_of (get (headers game) "Result" "*")) as [target|];
    [|split; [done | intros (t & w & b & Ht & _); done]].
  destruct (truthy_str (get (headers game) "WhiteElo" "")) eqn:Hw; cbn [negb orb];
    [|split; [done | intros (t & w & b & _ & (? & _) & _); done]].
  destruct (truthy_str (get (headers game) "BlackElo" "")) eqn:Hb; cbn [negb orb];
    [|split; [done | intros (t & w & b & _ & _ & (? & _) & _); done]].
  destruct (String.eqb (get (headers game) "WhiteElo" "") "?") eqn:Hwq; cbn [orb];
    [split; [done | intros (t & w & b & _ & (_ & ? & _) & _); done]|].
  destruct (String.eqb (get (headers game) "BlackElo" "") "?") eqn:Hbq; cbn [orb];
    [split; [done | intros (t & w & b & _ & _ & (_ & ? & _) & _); done]|].
  destruct (py_int (get (headers game) "WhiteElo" "")) as [white_elo|];
    [|split; [done | intros (t & w & b & _ & (_ & _ & ?) & _); done]].
  destruct (py_int (get (headers game) "BlackElo" "")) as [black_elo|];
    [|split; [done | intros (t & w & b & _ & _ & (_ & _ & ?) & _); done]].
  destruct (Z.ltb_spec
              (Z.of_nat (Nat.min (Z.to_nat (target_move * 2)) (length (mainline_moves game))))
              (target_move * 2)) as [Hshort|Hlong].
  - split; [done|]. intros (t & w & b & _ & _ & _ & Hlen & _). lia.
  - split.
    + intros [= <-]. exists target, white_elo, black_elo.
      repeat split; [lia].
    + intros (t & w & b & [= <-] & (_ & _ & [= <-]) & (_ & _ & [= <-]) & _ & ->).
      reflexivity.
Qed.

Lemma no_outcome_None (target_move : Z) (game : Game) :
  no_outcome (headers game) -> process_game target_move game = None.
Proof.
  intros Hno. destruct (process_game target_move game) as [row|] eqn:Hrow; [|done].
  apply process_game_Some in Hrow as (t & w & b & Ht & _).
  apply target_of_Some in Ht. unfold get in Ht.
  destruct Hno as [Hn|[Hn|(r & Hn & H1 & H2 & H3)]]; rewrite Hn in Ht; cbn in Ht;
    destruct Ht as [[? _]|[[? _]|[? _]]]; done.
Qed.

Lemma bad_rating_not_rating (h : gmap string string) (key : string) (elo : Z) :
  bad_rating h key -> ~ rating h key elo.
Proof.
  intros Hbad (s & Hs & Hne & Hq & Hint).
  destruct Hbad as [Hn|[Hn|[Hn|(s' & Hn & Hint')]]]; rewrite Hn in Hs;
    simplify_eq; congruence.
Qed.

Lemma bad_rating_None (target_move : Z) (game : Game) :
  bad_rating (headers game) "WhiteElo" \/ bad_rating (headers game) "BlackElo" ->
  process_game target_move game = None.
Proof.
  intros Hbad. destruct (process_game target_move game) as [row|] eqn:Hrow; [|done].
  apply process_game_Some in Hrow as (t & w & b & _ & Hw & Hb & _).
  destruct Hbad as [Hbad|Hbad]; exfalso; eapply bad_rating_not_rating; eauto.
Qed.

Lemma short_game_None (target_move : Z) (game : Game) :
  Z.of_nat (length (mainline_moves game)) < target_move * 2 ->
  process_game target_move game = None.
Proof.
  intros Hshort. destruct (process_game target_move game) as [row|] eqn:Hrow; [|done].
  apply process_game_Some in Hrow as (t & w & b & _ & _ & _ & Hlen & _). lia.
Qed.

(** *** The loop over the stream *)

Section Loop.
Variable target_move : Z.
Variable max_games : option Z.

(** A game the body of the loop passes over leaves no trace in
    [games_data]. *)
Lemma scan_skip (game : Game) (pre post : list Game) :
  process_game target_move game = None ->
  forall data n,
    fst (scan target_move max_games (pre ++ game :: post) data n)
    = fst (scan target_move max_games (pre ++ post) data n).
Proof.
  intros Hnone. induction pre as [|g pre IH]; intros data n.
  - cbn [app scan]. rewrite Hnone. reflexivity.
  - cbn [app scan]. destruct (process_game target_move g) as [row|]; [|apply IH].
    destruct (truthy_opt max_games && (n + 1 >=? default 0 max_games));
      [reflexivity|apply IH].
Qed.

(** The loop reads a prefix of the stream and appends the rows of the
    games of that prefix, in their order. *)
Lemma scan_prefix (stream : list Game) :
  forall data n,
  exists read,
    stream = read ++ snd (scan target_move max_games stream data n)
    /\ fst (scan target_move max_games stream data n)
       = data ++ omap (process_game target_move) read.
Proof.
  induction stream as [|g stream IH]; intros data n; cbn [scan].
  - exists []. cbn. by rewrite app_nil_r.
  - destruct (process_game target_move g) as [row|] eqn:Hrow.
    + destruct (truthy_opt max_games && (n + 1 >=? default 0 max_games)).
      * exists [g]. cbn. by rewrite Hrow.
      * destruct (IH (data ++ [row]) (n + 1)) as (read & Hread & Hdata).
        exists (g :: read). cbn [app omap list_omap]. rewrite Hrow, Hdata, <- Hread.
        by rewrite <- app_assoc.
    + destruct (IH data n) as (read & Hread & Hdata).
      exists (g :: read). cbn [app omap list_omap]. by rewrite Hrow, Hdata, <- Hread.
Qed.

Lemma scan_uncapped (stream : list Game) :
  truthy_opt max_games = false ->
  forall data n,
    scan target_move max_games stream data n
    = (data ++ omap (process_game target_move) stream, []).
Proof.
  intros Hcap. induction stream as [|g stream IH]; intros data n; cbn [scan].
  - by rewrite app_nil_r.
  - rewrite Hcap. cbn [andb omap list_omap].
    destruct (process_game target_move g) as [row|]; rewrite IH; [|done].
    by rewrite <- app_assoc.
Qed.

Lemma process_pgn_file_elem (stream : list Game) (row : gmap string Num) :
  row ∈ process_pgn_file stream target_move max_games ->
  exists game, game ∈ stream /\ process_game target_move game = Some row.
Proof.
  unfold process_pgn_file.
  destruct (scan_prefix stream [] 0) as (read & Hread & ->). cbn [app].
  intros (game & Hgame & Hrow)%list_elem_of_omap.
  exists game. split; [|done]. rewrite Hread. apply elem_of_app. by left.
Qed.

End Loop.

(** With a cap that counts, the loop stops on the game that fills it. *)
Lemma scan_capped (target_move cap : Z) (stream : list Game) :
  0 < cap ->
  forall data n, n < cap ->
  exists read,
    stream = read ++ snd (scan target_move (Some cap) stream data n)
    /\ fst (scan target_move (Some cap) stream data n)
       = data ++ omap (process_game target_move) read
    /\ Z.of_nat (length (omap (process_game target_move) read)) <= cap - n
    /\ (Z.of_nat (length (omap (process_game target_move) read)) = cap - n ->
        exists read' game, read = read' ++ [game] /\ qualifies target_move game)
    /\ (Z.of_nat (length (omap (process_game target_move) read)) < cap - n ->
        snd (scan target_move (Some cap) stream data n) = []).
Proof.
  intros Hcap. induction stream as [|g stream IH]; intros data n Hn; cbn [scan].
  - exists []. cbn. rewrite app_nil_r. split_and!; try done; lia.
  - assert (truthy_opt (Some cap) = true) as ->
        by (cbn; destruct (Z.eqb_spec cap 0); [lia|done]).
    cbn [andb default from_option id].
    destruct (process_game target_move g) as [row|] eqn:Hrow.
    + destruct (Z.geb_spec (n + 1) cap) as [Hfull|Hroom].
      * exists [g]. cbn. rewrite Hrow. cbn. split_and!; try done; try lia.
        intros _. exists [], g. split; [done|]. unfold qualifies. by rewrite Hrow.
      * destruct (IH (data ++ [row]) (n + 1)) as (read & Hread & Hdata & Hle & Hlast & Hend);
          [lia|].
        exists (g :: read). cbn [app omap list_omap length]. rewrite Hrow.
        cbn [length]. split_and!.
        -- by rewrite <- Hread.
        -- by rewrite Hdata, <- app_assoc.
        -- lia.
        -- intros Hlen.
           destruct Hlast as (read' & game & -> & Hq); [lia|].
           by exists (g :: read'), game.
        -- intros Hlen. apply Hend. lia.
    + destruct (IH data n Hn) as (read & Hread & Hdata & Hle & Hlast & Hend).
      exists (g :: read). cbn [app omap list_omap]. rewrite Hrow.
      split_and!; try done; [by rewrite <- Hread|].
      intros Hlen. destruct (Hlast Hlen) as (read' & game & -> & Hq).
      by exists (g :: read'), game.
Qed.

End ScannerFacts.

(** ** The rows of the dataset *)

Section RowFacts.
Context `{E : RulesEngine}.

Lemma dom_row_of (features : gmap string Num) (white_elo black_elo : Z) (target : Num) :
  dom (row_of features white_elo black_elo target)
  = dom features ∪ list_to_set ["white_elo"; "black_elo"; "elo_diff"; "result"].
Proof.
  unfold row_of. rewrite !dom_insert_L. cbn [list_to_set foldr].
  apply set_eq. intros k. rewrite !elem_of_union, !elem_of_singleton, elem_of_empty.
  tauto.
Qed.

Lemma lookup_result (features : gmap string Num) (white_elo black_elo : Z) (target : Num) :
  row_of features white_elo black_elo target !! "result" = Some target.
Proof. unfold row_of. apply lookup_insert_eq. Qed.

(** A row of the dataset is the row of a game of the stream. *)
Lemma row_origin (stream : list Game) (target_move : Z) (max_games : option Z)
    (row : gmap string Num) :
  row ∈ process_pgn_file stream target_move max_games ->
  exists (game : Game) (target : Num) (white_elo black_elo : Z),
    game ∈ stream
    /\ target_of (get (headers game) "Result" "*") = Some target
    /\ rating (headers game) "WhiteElo" white_elo
    /\ rating (headers game) "BlackElo" black_elo
    /\ target_move * 2 <= Z.of_nat (length (mainline_moves game))
    /\ row = row_of (extract_board_features (snapshot target_move game))
                    white_elo black_elo target.
Proof.
  intros (game & Hin & Hrow)%process_pgn_file_elem.
  apply process_game_Some in Hrow as (target & w & b & H).
  by exists game, target, w, b.
Qed.

(** Taking a game without a row out of the stream changes nothing. *)
Lemma process_pgn_file_skip (target_move : Z) (max_games : option Z)
    (game : Game) (pre post : list Game) :
  process_game target_move game = None ->
  process_pgn_file (pre ++ game :: post) target_move max_games
  = process_pgn_file (pre ++ post) target_move max_games.
Proof. intros Hnone. unfold process_pgn_file. by apply scan_skip. Qed.

Lemma king_safety_with_king (b : Board) (c : Color) (ksq : Square) :
  king b c = Some ksq -> ksq <> 0 ->
  extract_board_features b !! (color_name c +:+ "_king_attackers")
    = Some (Int (Z.of_nat (length (attackers b (opposite c) ksq))))
  /\ extract_board_features b !! (color_name c +:+ "_pawn_shield")
     = Some (Int (pawn_shield_from b c ksq)).
Proof.
  intros Hk Hne. destruct (lookup_king_safety b c) as [-> ->].
  unfold king_attackers_value, pawn_shield_value. rewrite Hk.
  destruct (Z.eqb_spec ksq 0); done.
Qed.

Lemma king_safety_without_king (b : Board) (c : Color) :
  king b c = None ->
  extract_board_features b !! (color_name c +:+ "_king_attackers") = Some (Int 0)
  /\ extract_board_features b !! (color_name c +:+ "_pawn_shield") = Some (Int 0).
Proof.
  intros Hk. destruct (lookup_king_safety b c) as [-> ->].
  unfold king_attackers_value, pawn_shield_value. by rewrite Hk.
Qed.

(** The square a1 is the integer 0, which the test on the king square
    takes for false. *)
Lemma king_safety_king_on_a1 (b : Board) (c : Color) :
  king b c = Some 0 ->
  extract_board_features b !! (color_name c +:+ "_king_attackers") = Some (Int 0)
  /\ extract_board_features b !! (color_name c +:+ "_pawn_shield") = Some (Int 0).
Proof.
  intros Hk. destruct (lookup_king_safety b c) as [-> ->].
  unfold king_attackers_value, pawn_shield_value. by rewrite Hk.
Qed.

End RowFacts.

(** * The feature extractor: statements *)

(** C1 -- a king on a1 is read as no king.  In [cornered_king] white has
    its king on the board, on a1; the black rook on a8 attacks it down the
    open a-file, so one opposing piece attacks the king's square, and the
    scan of the files finds the pawn on b2, a shield of one.  The extractor
    nevertheless writes 0 for both features, as it does for the position
    without a white king: the king's square a1 is the integer 0, and the
    source tests the square for truth instead of comparing it with
    [None]. *)
Theorem C1_king_on_a1_read_as_missing :
  king cornered_king WHITE = Some A1
  /\ length (@attackers engine cornered_king BLACK A1) = 1%nat
  /\ pawn_shield_from cornered_king WHITE A1 = 1
  /\ @extract_board_features engine cornered_king !! "white_king_attackers" = Some (Int 0)
  /\ @extract_board_features engine cornered_king !! "white_pawn_shield" = Some (Int 0)
  /\ king no_white_king WHITE = None
  /\ @extract_board_features engine no_white_king !! "white_king_attackers" = Some (Int 0)
  /\ @extract_board_features engine no_white_king !! "white_pawn_shield" = Some (Int 0).
Proof.
  assert (king cornered_king WHITE = Some 0) as Hk by (vm_compute; reflexivity).
  assert (king no_white_king WHITE = None) as Hn by (vm_compute; reflexivity).
  split_and!.
  - exact Hk.
  - vm_compute. reflexivity.
  - vm_compute. reflexivity.
  - apply (king_safety_king_on_a1 (E:=engine) cornered_king WHITE Hk).
  - apply (king_safety_king_on_a1 (E:=engine) cornered_king WHITE Hk).
  - exact Hn.
  - apply (king_safety_without_king (E:=engine) no_white_king WHITE Hn).
  - apply (king_safety_without_king (E:=engine) no_white_king WHITE Hn).
Qed.

(** C4 -- whatever the position, the extracted mapping has the keys
    [feature_keys]; a color without a king gets 0 for its two king-safety
    features; and every row of the dataset has the keys [row_keys]. *)
Theorem C4_fixed_schema `{E : RulesEngine} :
  (forall b : Board, dom (extract_board_features b) = feature_keys)
  /\ (forall (b : Board) (c : Color),
        no_king b c ->
        extract_board_features b !! (color_name c +:+ "_king_attackers") = Some (Int 0)
        /\ extract_board_features b !! (color_name c +:+ "_pawn_shield") = Some (Int 0))
  /\ (forall (stream : list Game) (target_move : Z) (max_games : option Z)
             (row : gmap string Num),
        row ∈ process_pgn_file stream target_move max_games ->
        dom row = row_keys).
Proof.
  split_and!.
  - apply dom_extract_board_features.
  - intros b c Hno. apply king_safety_without_king. by apply king_None.
  - intros stream target_move max_games row Hrow.
    apply row_origin in Hrow as (game & target & w & b & _ & _ & _ & _ & _ & ->).
    rewrite dom_row_of, dom_extract_board_features. reflexivity.
Qed.

(** C6 -- the feature [material_diff] is the white material minus the
    black material, each being the sum, over the squares of the board, of
    the values of the pieces of that color standing there, with the values
    pawn 1, knight 3, bishop 3, rook 5, queen 9 and king 0. *)
Theorem C6_material_diff `{E : RulesEngine} (b : Board) :
  extract_board_features b !! "white_material" = Some (Int (material_in_words b WHITE))
  /\ extract_board_features b !! "black_material" = Some (Int (material_in_words b BLACK))
  /\ extract_board_features b !! "material_diff"
     = Some (Int (material_in_words b WHITE - material_in_words b BLACK))
  /\ map piece_values [PAWN; KNIGHT; BISHOP; ROOK; QUEEN; KING] = [1; 3; 3; 5; 9; 0].
Proof.
  destruct (lookup_material b) as (Hw & Hb & Hd).
  rewrite <- !material_eq.
  exact (conj Hw (conj Hb (conj Hd eq_refl))).
Qed.

(** C7 -- for each color the pawn-shield feature is an integer from 0 to
    3.  When the scan runs (the king square is there and is not 0) it is
    the sum, over the king's file and its neighbours on the board, at most
    three files, of what each file adds: one if a pawn of the color stands
    on it ahead of the king, and nothing otherwise; the inner loop adds
    that one at the first such pawn and leaves the file.  The ranks ahead
    are those above the king for white and those below it for black. *)
Theorem C7_pawn_shield_range `{E : RulesEngine} (b : Board) (c : Color) :
  exists n : Z,
    extract_board_features b !! (color_name c +:+ "_pawn_shield") = Some (Int n)
    /\ 0 <= n <= 3
    /\ (forall ksq : Square,
          king b c = Some ksq -> ksq <> 0 ->
          n = sum (map (file_shield b c (square_rank ksq)) (shield_files ksq))
          /\ (length (shield_files ksq) <= 3)%nat
          /\ (forall f, In f (shield_files ksq) ->
                0 <= f <= 7 /\ square_file ksq - 1 <= f <= square_file ksq + 1
                /\ 0 <= file_shield b c (square_rank ksq) f <= 1))
    /\ (forall (check_file : Z) (ranks : list Z) (pawn_shield : Z),
          scan_file b c check_file ranks pawn_shield
          = pawn_shield + int_of_bool (existsb (own_pawn b c check_file) ranks))
    /\ (forall king_rank r : Z,
          In r (ranks_ahead c king_rank) <->
          match c with
          | WHITE => king_rank < r <= 7
          | BLACK => 0 <= r < king_rank
          end).
Proof.
  exists (pawn_shield_value b c). split_and!.
  - apply lookup_king_safety.
  - apply pawn_shield_value_range.
  - apply pawn_shield_value_range.
  - intros ksq Hk Hne. split_and!.
    + unfold pawn_shield_value. rewrite Hk.
      destruct (Z.eqb_spec ksq 0); [done|]. apply pawn_shield_from_eq.
    + apply shield_files_length.
    + intros f Hf. unfold shield_files in Hf.
      apply List.filter_In in Hf as [Hf Hrange].
      pose proof (file_shield_range b c (square_rank ksq) f).
      cbn in Hf. split_and!; lia.
  - intros. apply scan_file_eq.
  - intros king_rank r. destruct c; [apply ranks_ahead_white | apply ranks_ahead_black].
Qed.

(** C8 -- on the standard starting position both materials are 39, their
    difference is 0, and both pawn shields are 3. *)
Theorem C8_starting_position `{E : RulesEngine} :
  extract_board_features starting_board !! "white_material" = Some (Int 39)
  /\ extract_board_features starting_board !! "black_material" = Some (Int 39)
  /\ extract_board_features starting_board !! "material_diff" = Some (Int 0)
  /\ extract_board_features starting_board !! "white_pawn_shield" = Some (Int 3)
  /\ extract_board_features starting_board !! "black_pawn_shield" = Some (Int 3).
Proof.
  destruct (lookup_material starting_board) as (-> & -> & ->).
  destruct (lookup_king_safety starting_board WHITE) as [_ Hw].
  destruct (lookup_king_safety starting_board BLACK) as [_ Hb].
  change (color_name WHITE +:+ "_pawn_shield") with "white_pawn_shield" in Hw.
  change (color_name BLACK +:+ "_pawn_shield") with "black_pawn_shield" in Hb.
  rewrite Hw, Hb.
  assert (material starting_board WHITE = 39) as -> by (vm_compute; reflexivity).
  assert (material starting_board BLACK = 39) as -> by (vm_compute; reflexivity).
  assert (pawn_shield_value starting_board WHITE = 3) as -> by (vm_compute; reflexivity).
  assert (pawn_shield_value starting_board BLACK = 3) as -> by (vm_compute; reflexivity).
  clear Hw Hb. repeat split.
Qed.

(** * The game scanner: statements *)

Section ScannerStatements.
Context `{E : RulesEngine}.

Lemma get_not_default (h : gmap string string) (key dflt v : string) :
  get h key dflt = v -> v <> dflt -> h !! key = Some v.
Proof.
  unfold get. destruct (h !! key) as [s|]; cbn; intros <- Hne; [done|].
  by destruct Hne.
Qed.

Lemma lookup_elos (features : gmap string Num) (white_elo black_elo : Z) (target : Num) :
  row_of features white_elo black_elo target !! "white_elo" = Some (Int white_elo)
  /\ row_of features white_elo black_elo target !! "black_elo" = Some (Int black_elo)
  /\ row_of features white_elo black_elo target !! "elo_diff"
     = Some (Int (white_elo - black_elo)).
Proof.
  unfold row_of. split_and!.
  - rewrite !lookup_insert_ne by done. apply lookup_insert_eq.
  - rewrite !lookup_insert_ne by done. apply lookup_insert_eq.
  - rewrite lookup_insert_ne by done. apply lookup_insert_eq.
Qed.

End ScannerStatements.

(** C2 -- the replay loop applies the first [2 * target_move] moves of a
    game to its starting position, or all of them if there are fewer, and
    counts them.  A game with fewer than [2 * target_move] moves gives no
    row: the dataset is the same with it and without it.  Every row of the
    dataset is extracted from the snapshot of a game of the stream, which
    is its position after exactly [2 * target_move] moves. *)
Theorem C2_snapshot_at_target_ply `{E : RulesEngine}
    (stream : list Game) (target_move : Z) (max_games : option Z) :
  (forall game : Game,
     replay target_move (mainline_moves game) (board game) 0
     = (fold_left push (take (Z.to_nat (target_move * 2)) (mainline_moves game)) (board game),
        Z.of_nat (Nat.min (Z.to_nat (target_move * 2)) (length (mainline_moves game)))))
  /\ (forall (game : Game) (pre post : list Game),
        Z.of_nat (length (mainline_moves game)) < target_move * 2 ->
        process_game target_move game = None
        /\ process_pgn_file (pre ++ game :: post) target_move max_games
           = process_pgn_file (pre ++ post) target_move max_games)
  /\ (forall row : gmap string Num,
        row ∈ process_pgn_file stream target_move max_games ->
        exists (game : Game) (target : Num) (white_elo black_elo : Z),
          game ∈ stream
          /\ target_move * 2 <= Z.of_nat (length (mainline_moves game))
          /\ Z.of_nat (length (take (Z.to_nat (target_move * 2)) (mainline_moves game)))
             = Z.max 0 (target_move * 2)
          /\ row = row_of (extract_board_features
                             (fold_left push
                                (take (Z.to_nat (target_move * 2)) (mainline_moves game))
                                (board game)))
                          white_elo black_elo target).
Proof.
  split_and!.
  - intros game. apply replay_from_start.
  - intros game pre post Hshort.
    pose proof (short_game_None target_move game Hshort) as Hnone.
    split; [done|]. by apply process_pgn_file_skip.
  - intros row Hrow.
    apply row_origin in Hrow as (game & target & w & b & Hin & _ & _ & _ & Hlen & ->).
    exists game, target, w, b. split_and!; [done|done| |done].
    rewrite length_take. lia.
Qed.

(** C3 -- a game whose result header is absent, ["*"] or none of the
    three outcomes gives no row: the dataset is the same with it and
    without it.  Every row of the dataset is the row of a game of the
    stream whose result is ["1-0"], ["0-1"] or ["1/2-1/2"], and its field
    [result] is 1, 0 or 0.5 accordingly. *)
Theorem C3_result_label `{E : RulesEngine}
    (stream : list Game) (target_move : Z) (max_games : option Z) :
  (forall (game : Game) (pre post : list Game),
     no_outcome (headers game) ->
     process_game target_move game = None
     /\ process_pgn_file (pre ++ game :: post) target_move max_games
        = process_pgn_file (pre ++ post) target_move max_games)
  /\ (forall row : gmap string Num,
        row ∈ process_pgn_file stream target_move max_games ->
        exists game : Game,
          game ∈ stream
          /\ process_game target_move game = Some row
          /\ ((headers game !! "Result" = Some "1-0" /\ row !! "result" = Some (Int 1))
              \/ (headers game !! "Result" = Some "0-1" /\ row !! "result" = Some (Int 0))
              \/ (headers game !! "Result" = Some "1/2-1/2" /\ row !! "result" = Some Half))).
Proof.
  split.
  - intros game pre post Hno.
    pose proof (no_outcome_None target_move game Hno) as Hnone.
    split; [done|]. by apply process_pgn_file_skip.
  - intros row Hrow.
    apply process_pgn_file_elem in Hrow as (game & Hin & Hrow).
    exists game. split_and!; [done|done|].
    apply process_game_Some in Hrow as (target & w & b & Ht & _ & _ & _ & ->).
    rewrite lookup_result.
    apply target_of_Some in Ht as [[Hr ->]|[[Hr ->]|[Hr ->]]];
      apply get_not_default in Hr; try done; auto.
Qed.

(** C5 -- a game whose white or black rating is missing, empty, ["?"] or
    not a numeral gives no row, and the scan goes on: the dataset is the
    same with the game and without it.  Every row of the dataset is the
    row of a game of the stream with both ratings read, carries them, and
    has all the keys of a row. *)
Theorem C5_rating_filter `{E : RulesEngine}
    (stream : list Game) (target_move : Z) (max_games : option Z) :
  (forall (game : Game) (pre post : list Game),
     bad_rating (headers game) "WhiteElo" \/ bad_rating (headers game) "BlackElo" ->
     process_game target_move game = None
     /\ process_pgn_file (pre ++ game :: post) target_move max_games
        = process_pgn_file (pre ++ post) target_move max_games)
  /\ (forall row : gmap string Num,
        row ∈ process_pgn_file stream target_move max_games ->
        exists (game : Game) (white_elo black_elo : Z),
          game ∈ stream
          /\ process_game target_move game = Some row
          /\ rating (headers game) "WhiteElo" white_elo
          /\ rating (headers game) "BlackElo" black_elo
          /\ row !! "white_elo" = Some (Int white_elo)
          /\ row !! "black_elo" = Some (Int black_elo)
          /\ dom row = row_keys).
Proof.
  split.
  - intros game pre post Hbad.
    pose proof (bad_rating_None target_move game Hbad) as Hnone.
    split; [done|]. by apply process_pgn_file_skip.
  - intros row Hrow.
    apply process_pgn_file_elem in Hrow as (game & Hin & Hrow).
    pose proof Hrow as Hgame.
    apply process_game_Some in Hrow as (target & w & b & _ & Hw & Hb & _ & ->).
    exists game, w, b.
    destruct (lookup_elos (extract_board_features (snapshot target_move game)) w b target)
      as (Hlw & Hlb & _).
    split_and!; try done.
    rewrite dom_row_of, dom_extract_board_features. reflexivity.
Qed.

(** C9 -- with a positive cap the dataset has at most [max_games] rows.
    The loop reads a prefix of the stream and leaves the rest unread; the
    rows are those of the games read, one for each game that qualifies, in
    the order of the stream.  If the cap is reached, the last game read is
    the one whose row filled it; if it is not, the whole stream was read.
    So the dataset is the first [max_games] rows of the stream, and with a
    cap of 1 and a qualifying game in the stream it has exactly one row. *)
Theorem C9_acceptance_cap `{E : RulesEngine}
    (stream : list Game) (target_move : Z) (max_games : Z) :
  0 < max_games ->
  let data := process_pgn_file stream target_move (Some max_games) in
  let rest := unread stream target_move (Some max_games) in
  Z.of_nat (length data) <= max_games
  /\ (exists read : list Game,
        stream = read ++ rest
        /\ data = omap (process_game target_move) read
        /\ (Z.of_nat (length data) = max_games ->
            exists read' game, read = read' ++ [game] /\ qualifies target_move game)
        /\ (Z.of_nat (length data) < max_games -> rest = []))
  /\ data = take (Z.to_nat max_games) (omap (process_game target_move) stream)
  /\ (max_games = 1 ->
      (exists game, game ∈ stream /\ qualifies target_move game) ->
      length data = 1%nat).
Proof.
  intros Hcap data rest.
  destruct (scan_capped target_move max_games stream Hcap [] 0 Hcap)
    as (read & Hread & Hdata & Hle & Hlast & Hend).
  fold rest in Hread, Hend. cbn [app] in Hdata.
  change (fst (scan target_move (Some max_games) stream [] 0)) with data in Hdata.
  rewrite <- Hdata in Hle, Hlast, Hend.
  replace (max_games - 0) with max_games in Hle, Hlast, Hend by lia.
  assert (data = take (Z.to_nat max_games) (omap (process_game target_move) stream)) as Htake.
  { rewrite Hread, omap_app, <- Hdata.
    destruct (Z.eq_dec (Z.of_nat (length data)) max_games) as [Heq|Hne].
    - rewrite take_app_length'; [done|lia].
    - rewrite Hend by lia. cbn [omap list_omap]. rewrite app_nil_r.
      rewrite take_ge; [done|lia]. }
  split_and!.
  - exact Hle.
  - exists read. split_and!; done.
  - exact Htake.
  - intros -> (game & Hin & [row Hrow]).
    assert (row ∈ omap (process_game target_move) stream) as Hmem
        by (apply list_elem_of_omap; eauto).
    rewrite Htake.
    destruct (omap (process_game target_move) stream) as [|r rows]; [|reflexivity].
    by apply elem_of_nil in Hmem.
Qed.

(** C10 -- a cap of 0 is no cap: the dataset is the one obtained with
    [None], the rows of all the qualifying games of the stream, and the
    whole stream is read. *)
Theorem C10_zero_cap_is_no_cap `{E : RulesEngine} (stream : list Game) (target_move : Z) :
  process_pgn_file stream target_move (Some 0) = process_pgn_file stream target_move None
  /\ process_pgn_file stream target_move (Some 0) = omap (process_game target_move) stream
  /\ unread stream target_move (Some 0) = [].
Proof.
  unfold process_pgn_file, unread.
  rewrite (scan_uncapped target_move (Some 0) stream eq_refl [] 0).
  rewrite (scan_uncapped target_move None stream eq_refl [] 0).
  done.
Qed.

(** * The statements at work *)

(** The sample game [game_a] qualifies at the default depth of 20 moves. *)
Lemma game_a_qualifies : @qualifies engine 20 game_a.
Proof.
  eexists. apply process_game_Some. exists (Int 1), 1500, 1480. split_and!.
  - vm_compute. reflexivity.
  - exists "1500". split_and!; [reflexivity|done|done|vm_compute; reflexivity].
  - exists "1480". split_and!; [reflexivity|done|done|vm_compute; reflexivity].
  - vm_compute. discriminate.
  - reflexivity.
Defined.

(** The stream of three games gives two rows, a white win and a draw, in
    that order; one row with a cap of 1, the other two games left unread;
    and two rows again with a cap of 0. *)
Example three_games_results :
  map (fun row : gmap string Num => row !! "result")
      (@process_pgn_file engine three_games 20 None)
  = [Some (Int 1); Some Half].
Proof. vm_compute. reflexivity. Qed.

Example three_games_capped :
  map (fun row : gmap string Num => row !! "result")
      (@process_pgn_file engine three_games 20 (Some 1))
  = [Some (Int 1)]
  /\ length (@unread engine three_games 20 (Some 1)) = 2%nat.
Proof. split; vm_compute; reflexivity. Qed.

Example three_games_cap_zero :
  length (@process_pgn_file engine three_games 20 (Some 0)) = 2%nat.
Proof. vm_compute. reflexivity. Qed.

(** A position where black is ahead: the difference is negative. *)
Example cornered_king_material :
  @extract_board_features engine cornered_king !! "white_material" = Some (Int 1)
  /\ @extract_board_features engine cornered_king !! "black_material" = Some (Int 5)
  /\ @extract_board_features engine cornered_king !! "material_diff" = Some (Int (-4)).
Proof.
  destruct (lookup_material (E:=engine) cornered_king) as (-> & -> & ->).
  assert (material cornered_king WHITE = 1) as -> by (vm_compute; reflexivity).
  assert (material cornered_king BLACK = 5) as -> by (vm_compute; reflexivity).
  repeat split.
Qed.

Lemma C2_witness :
  Z.of_nat (length (@mainline_moves engine game_short)) < 20 * 2
  /\ @process_game engine 20 game_short = None.
Proof.
  split; [vm_compute; reflexivity|].
  destruct (C2_snapshot_at_target_ply (E:=engine) [] 20 None) as (_ & Hshort & _).
  apply (Hshort game_short [] []). vm_compute. reflexivity.
Defined.

Lemma C3_witness :
  @no_outcome (@headers engine game_unfinished)
  /\ @process_game engine 20 game_unfinished = None.
Proof.
  assert (no_outcome (@headers engine game_unfinished)) as Hno
      by (right; left; reflexivity).
  split; [exact Hno|].
  destruct (C3_result_label (E:=engine) [] 20 None) as (Hskip & _).
  apply (Hskip game_unfinished [] [] Hno).
Defined.

Lemma C4_witness :
  no_king no_white_king WHITE
  /\ @extract_board_features engine no_white_king !! "white_king_attackers" = Some (Int 0)
  /\ @extract_board_features engine no_white_king !! "white_pawn_shield" = Some (Int 0).
Proof.
  assert (no_king no_white_king WHITE) as Hk
      by (apply king_None; vm_compute; reflexivity).
  split; [exact Hk|].
  destruct (C4_fixed_schema (E:=engine)) as (_ & Hnone & _).
  apply (Hnone no_white_king WHITE Hk).
Defined.

Lemma C5_witness :
  @bad_rating engine (@headers engine game_c) "WhiteElo"
  /\ @process_game engine 20 game_c = None
  /\ @process_pgn_file engine three_games 20 None
     = @process_pgn_file engine [game_a; game_b] 20 None.
Proof.
  assert (@bad_rating engine (@headers engine game_c) "WhiteElo") as Hbad
      by (right; right; left; reflexivity).
  split; [exact Hbad|].
  destruct (C5_rating_filter (E:=engine) [] 20 None) as (Hskip & _).
  apply (Hskip game_c [game_a; game_b] [] (or_introl Hbad)).
Defined.

Lemma C7_witness :
  king starting_board WHITE = Some 4
  /\ exists n : Z,
       @extract_board_features engine starting_board !! "white_pawn_shield" = Some (Int n)
       /\ 0 <= n <= 3
       /\ n = sum (map (file_shield starting_board WHITE (square_rank 4)) (shield_files 4)).
Proof.
  assert (king starting_board WHITE = Some 4) as Hk by (vm_compute; reflexivity).
  split; [exact Hk|].
  destruct (C7_pawn_shield_range (E:=engine) starting_board WHITE)
    as (n & Hn & Hrange & Hscan & _).
  exists n. split_and!; [exact Hn|lia|lia|].
  apply (Hscan 4 Hk). lia.
Defined.

Lemma C9_witness :
  0 < 1 /\ length (@process_pgn_file engine three_games 20 (Some 1)) = 1%nat.
Proof.
  assert (0 < 1) as Hcap by lia.
  split; [exact Hcap|].
  destruct (C9_acceptance_cap (E:=engine) three_games 20 1 Hcap) as (_ & _ & _ & Hone).
  apply Hone; [reflexivity|].
  exists game_a. split; [apply list_elem_of_here | exact game_a_qualifies].
Defined.

(** * Further properties of the feature extractor *)

Section CountFacts.
Context `{E : RulesEngine}.

Lemma holds_true (b : Board) (pt : PieceType) (c : Color) (sq : Square) :
holds b pt c sq = true <-> piece_at b sq = Some (mkPiece pt c).
Proof.
unfold holds. destruct (piece_at b sq) as [[pt' c']|]; [|split; done].
cbn. split.
- intros Hh. destruct pt', pt; try done; destruct c', c; done.
- intros [= -> ->]. destruct pt, c; done.
Qed.

Lemma elem_of_pieces (b : Board) (pt : PieceType) (c : Color) (sq : Square) :
sq ∈ pieces b pt c <-> 0 <= sq < 64 /\ piece_at b sq = Some (mkPiece pt c).
Proof.
unfold pieces. rewrite list_elem_of_filter, elem_of_SQUARES, <- holds_true.
rewrite Is_true_true. tauto.
Qed.

Lemma count_range (b : Board) (pt : PieceType) (c : Color) : 0 <= count b pt c <= 64.
Proof.
unfold count, pieces.
pose proof (length_filter (fun sq => Is_true (holds b pt c sq)) SQUARES) as Hle.
change (length SQUARES) with 64%nat in Hle. lia.
Qed.

Lemma lookup_count (b : Board) (c : Color) (pt : PieceType) :
pt <> KING ->
extract_board_features b !! count_key c pt = Some (Int (count b pt c)).
Proof.
intros Hpt. rewrite extract_board_features_eq.
destruct c, pt; try reflexivity; by destruct Hpt.
Qed.

Lemma lookup_king_count (b : Board) (c : Color) :
extract_board_features b !! count_key c KING = None.
Proof. rewrite extract_board_features_eq. destruct c; reflexivity. Qed.

(** The material over a list of squares, from the counts of the pieces on
    those squares. *)
Lemma material_counts_over (b : Board) (c : Color) (l : list Square) :
sum (map (fun sq => match piece_at b sq with
                    | Some p => if Color_eqb (color p) c
                                then piece_values (piece_type p) else 0
                    | None => 0
                    end) l)
= 1 * Z.of_nat (length (filter (fun sq => Is_true (holds b PAWN c sq)) l))
  + 3 * Z.of_nat (length (filter (fun sq => Is_true (holds b KNIGHT c sq)) l))
  + 3 * Z.of_nat (length (filter (fun sq => Is_true (holds b BISHOP c sq)) l))
  + 5 * Z.of_nat (length (filter (fun sq => Is_true (holds b ROOK c sq)) l))
  + 9 * Z.of_nat (length (filter (fun sq => Is_true (holds b QUEEN c sq)) l)).
Proof.
induction l as [|sq l IH]; [reflexivity|].
assert (forall pt,
          Z.of_nat (length (filter (fun sq => Is_true (holds b pt c sq)) (sq :: l)))
          = int_of_bool (holds b pt c sq)
            + Z.of_nat (length (filter (fun sq => Is_true (holds b pt c sq)) l)))
  as Hstep.
{ intros pt. rewrite filter_cons. destruct (holds b pt c sq).
  - rewrite decide_True by exact I. cbn [length int_of_bool]. lia.
  - rewrite decide_False by (intros []). cbn [int_of_bool]. lia. }
cbn [map]. rewrite sum_cons, IH, !Hstep. clear Hstep IH.
generalize (Z.of_nat (length (filter (fun sq => Is_true (holds b PAWN c sq)) l)))
  (Z.of_nat (length (filter (fun sq => Is_true (holds b KNIGHT c sq)) l)))
  (Z.of_nat (length (filter (fun sq => Is_true (holds b BISHOP c sq)) l)))
  (Z.of_nat (length (filter (fun sq => Is_true (holds b ROOK c sq)) l)))
  (Z.of_nat (length (filter (fun sq => Is_true (holds b QUEEN c sq)) l))).
intros nP nN nB nR nQ. unfold holds.
destruct (piece_at b sq) as [[pt' c']|]; cbn.
- destruct pt', c', c; cbn; lia.
- lia.
Qed.

Lemma material_by_counts_eq (b : Board) (c : Color) :
material b c = material_by_counts b c.
Proof.
rewrite material_eq. unfold material_in_words, material_by_counts, count, pieces.
apply material_counts_over.
Qed.

(** Over a list of squares the two materials together are at most nine
    points a square. *)
Lemma material_bound_over (b : Board) (l : list Square) :
let value (c : Color) (sq : Square) :=
  match piece_at b sq with
  | Some p => if Color_eqb (color p) c then piece_values (piece_type p) else 0
  | None => 0
  end in
0 <= sum (map (value WHITE) l)
/\ 0 <= sum (map (value BLACK) l)
/\ sum (map (value WHITE) l) + sum (map (value BLACK) l) <= 9 * Z.of_nat (length l).
Proof.
intros value. induction l as [|sq l IH]; [cbn; lia|].
cbn [map length]. rewrite !sum_cons. destruct IH as (Hw & Hb & Hsum).
revert Hw Hb Hsum.
generalize (sum (map (value WHITE) l)) (sum (map (value BLACK) l)).
intros sw sb Hw Hb Hsum. subst value. cbn beta.
destruct (piece_at b sq) as [[pt' c']|]; cbn.
- destruct pt', c'; cbn; lia.
- lia.
Qed.

Lemma material_bounds (b : Board) :
0 <= material b WHITE /\ 0 <= material b BLACK
/\ material b WHITE + material b BLACK <= 576.
Proof.
rewrite !material_eq. unfold material_in_words.
pose proof (material_bound_over b SQUARES) as H. cbn zeta in H.
change (length SQUARES) with 64%nat in H. lia.
Qed.

End CountFacts.

Section FragmentFacts.
Context `{E : RulesEngine}.

(** A family of features, written as inserts of keys of the extracted
    mapping, is part of it. *)
Ltac fragment_in_features :=
  apply map_subseteq_spec; intros k v Hk;
  repeat (apply lookup_insert_Some in Hk as [[<- <-]|[_ Hk]];
          [rewrite extract_board_features_eq; reflexivity|]);
  by rewrite lookup_empty in Hk.

Lemma material_in_features (b : Board) :
get_material_features b ⊆ extract_board_features b.
Proof. unfold get_material_features. fragment_in_features. Qed.

Lemma piece_count_in_features (b : Board) :
get_piece_count_features b ⊆ extract_board_features b.
Proof.
unfold get_piece_count_features. cbn [fold_left]. unfold piece_count_step.
fragment_in_features.
Qed.

Lemma king_safety_in_features (b : Board) :
get_king_safety_features b ⊆ extract_board_features b.
Proof.
unfold get_king_safety_features. rewrite !king_safety_of_eq.
fragment_in_features.
Qed.

Lemma mobility_in_features (b : Board) :
get_mobility_features b ⊆ extract_board_features b.
Proof. unfold get_mobility_features. fragment_in_features. Qed.

Lemma game_state_in_features (b : Board) :
get_game_state_features b ⊆ extract_board_features b.
Proof. unfold get_game_state_features. fragment_in_features. Qed.

Lemma size_feature_keys : size feature_keys = 22%nat.
Proof. vm_compute. reflexivity. Qed.

Lemma size_row_keys : size row_keys = 26%nat.
Proof. vm_compute. reflexivity. Qed.

Lemma features_are_integers (b : Board) (k : string) (v : Num) :
extract_board_features b !! k = Some v -> exists z : Z, v = Int z.
Proof.
rewrite extract_board_features_eq. intros Hk%elem_of_list_to_map_2.
repeat (apply elem_of_cons in Hk as [[= _ ->]|Hk]; [eexists; reflexivity|]).
by apply elem_of_nil in Hk.
Qed.

Lemma features_lack_metadata (b : Board) (k : string) :
k ∈ (list_to_set ["white_elo"; "black_elo"; "elo_diff"; "result"] : gset string) ->
extract_board_features b !! k = None.
Proof.
intros Hk. apply not_elem_of_dom. rewrite dom_extract_board_features.
revert Hk. cbn [list_to_set foldr].
rewrite !elem_of_union, !elem_of_singleton, elem_of_empty.
intros [->|[->|[->|[->|[]]]]]; vm_compute; intros Hin; discriminate.
Qed.

End FragmentFacts.

Section ShieldFacts.
Context `{E : RulesEngine}.

Lemma square_rank_range (sq : Square) : 0 <= sq < 64 -> 0 <= square_rank sq <= 7.
Proof.
intros Hsq. unfold square_rank. rewrite Z.shiftr_div_pow2 by lia.
change (2 ^ 3) with 8. split.
- apply Z.div_pos; lia.
- assert (sq / 8 < 8) by (apply Z.div_lt_upper_bound; lia). lia.
Qed.

Lemma square_file_range (sq : Square) : 0 <= sq -> 0 <= square_file sq <= 7.
Proof.
intros Hsq. unfold square_file. change (Z.land sq 7) with (Z.land sq (Z.ones 3)).
rewrite Z.land_ones by lia. change (2 ^ 3) with 8.
pose proof (Z.mod_pos_bound sq 8). lia.
Qed.

Lemma existsb_ext_in {A} (f g : A -> bool) (l : list A) :
(forall a, In a l -> f a = g a) -> existsb f l = existsb g l.
Proof.
induction l as [|a l IH]; intros Hfg; [reflexivity|].
cbn [existsb]. rewrite (Hfg a) by (left; reflexivity).
rewrite IH; [reflexivity|]. intros a' Hin. apply Hfg. by right.
Qed.

Lemma holds_of_pieces (b b' : Board) (pt : PieceType) (c : Color) :
pieces b pt c = pieces b' pt c ->
forall sq, 0 <= sq < 64 -> holds b pt c sq = holds b' pt c sq.
Proof.
intros Hpieces sq Hsq.
assert (forall bd, holds bd pt c sq = true <-> sq ∈ pieces bd pt c) as Hin.
{ intros bd. rewrite elem_of_pieces, holds_true. tauto. }
destruct (holds b pt c sq) eqn:Hb, (holds b' pt c sq) eqn:Hb'; try reflexivity.
- apply Hin in Hb. rewrite Hpieces in Hb. apply Hin in Hb. congruence.
- apply Hin in Hb'. rewrite <- Hpieces in Hb'. apply Hin in Hb'. congruence.
Qed.

(** The squares the scan looks at are on the board. *)
Lemma scanned_square_range (c : Color) (ksq : Square) (f r : Z) :
0 <= ksq < 64 -> In f (shield_files ksq) -> In r (ranks_ahead c (square_rank ksq)) ->
0 <= square f r < 64.
Proof.
intros Hksq Hf Hr. pose proof (square_rank_range ksq Hksq) as Hrank.
unfold shield_files in Hf. apply List.filter_In in Hf as [_ Hf].
assert (0 <= r <= 7) as Hr'.
{ destruct c; [apply ranks_ahead_white in Hr | apply ranks_ahead_black in Hr]; lia. }
unfold square. lia.
Qed.

Lemma pawn_shield_from_ext (b b' : Board) (c : Color) (ksq : Square) :
0 <= ksq < 64 -> pieces b PAWN c = pieces b' PAWN c ->
pawn_shield_from b c ksq = pawn_shield_from b' c ksq.
Proof.
intros Hksq Hpawns. rewrite !pawn_shield_from_eq. f_equal.
apply map_ext_in. intros f Hf. unfold file_shield. f_equal.
apply existsb_ext_in. intros r Hr. unfold own_pawn.
apply holds_of_pieces; [done|]. by apply (scanned_square_range c ksq).
Qed.

(** Nothing is ahead of a king on the last rank of its direction. *)
Lemma pawn_shield_last_rank (b : Board) (c : Color) (ksq : Square) :
square_rank ksq = match c with WHITE => 7 | BLACK => 0 end ->
pawn_shield_from b c ksq = 0.
Proof.
intros Hrank. unfold pawn_shield_from. cbn [fold_left]. unfold shield_step.
rewrite Hrank.
assert (ranks_ahead c match c with WHITE => 7 | BLACK => 0 end = []) as ->
    by (destruct c; reflexivity).
cbn [scan_file].
repeat match goal with |- context [if ?t then _ else _] => destruct t end;
  reflexivity.
Qed.

Lemma shield_files_edge (ksq : Square) :
square_file ksq = 0 \/ square_file ksq = 7 -> (length (shield_files ksq) <= 2)%nat.
Proof. unfold shield_files. intros [-> | ->]; vm_compute; lia. Qed.

End ShieldFacts.

(** X1 -- for each of pawn, knight, bishop, rook and queen and each color
    the feature [<color>_<piece>s] is the number of squares of the board
    that hold such a piece, a number from 0 to 64; kings are not counted:
    there is no key for them. *)
Theorem X1_piece_counts `{E : RulesEngine} (b : Board) (c : Color) (pt : PieceType) :
  pt <> KING ->
  extract_board_features b !! count_key c pt = Some (Int (count b pt c))
  /\ 0 <= count b pt c <= 64
  /\ (forall sq : Square,
        sq ∈ pieces b pt c <-> 0 <= sq < 64 /\ piece_at b sq = Some (mkPiece pt c))
  /\ extract_board_features b !! count_key c KING = None.
Proof.
  intros Hpt. split_and!.
  - by apply lookup_count.
  - apply count_range.
  - apply count_range.
  - intros sq. apply elem_of_pieces.
  - apply lookup_king_count.
Qed.

(** X2 -- the material feature of a color is always the weighted sum of
    its five piece-count features: pawns + 3 knights + 3 bishops + 5 rooks
    + 9 queens. *)
Theorem X2_material_from_counts `{E : RulesEngine} (b : Board) (c : Color) :
  exists p n bi r q : Z,
    extract_board_features b !! count_key c PAWN = Some (Int p)
    /\ extract_board_features b !! count_key c KNIGHT = Some (Int n)
    /\ extract_board_features b !! count_key c BISHOP = Some (Int bi)
    /\ extract_board_features b !! count_key c ROOK = Some (Int r)
    /\ extract_board_features b !! count_key c QUEEN = Some (Int q)
    /\ extract_board_features b !! (color_name c +:+ "_material")
       = Some (Int (1 * p + 3 * n + 3 * bi + 5 * r + 9 * q)).
Proof.
  exists (count b PAWN c), (count b KNIGHT c), (count b BISHOP c),
         (count b ROOK c), (count b QUEEN c).
  split_and!; try (by apply lookup_count).
  destruct (lookup_material b) as (Hw & Hb & _).
  rewrite !material_by_counts_eq in Hw, Hb.
  destruct c; [exact Hw | exact Hb].
Qed.

(** X3 -- both materials are non-negative, together they are at most 576
    (nine points on each of the 64 squares), and so the material
    difference lies between -576 and 576. *)
Theorem X3_material_bounds `{E : RulesEngine} (b : Board) :
  exists w bl : Z,
    extract_board_features b !! "white_material" = Some (Int w)
    /\ extract_board_features b !! "black_material" = Some (Int bl)
    /\ extract_board_features b !! "material_diff" = Some (Int (w - bl))
    /\ 0 <= w /\ 0 <= bl /\ w + bl <= 576 /\ -576 <= w - bl <= 576.
Proof.
  exists (material b WHITE), (material b BLACK).
  destruct (lookup_material b) as (Hw & Hb & Hd).
  pose proof (material_bounds b) as (H0w & H0b & Hsum).
  split_and!; [exact Hw|exact Hb|exact Hd|lia..].
Qed.

(** X4 -- the five families of features have no key in common: the
    mapping of each family is part of the extracted mapping, none of its
    values being overwritten by a later family, and the extracted mapping
    has 22 entries. *)
Theorem X4_families_survive_the_merge `{E : RulesEngine} (b : Board) :
  get_material_features b ⊆ extract_board_features b
  /\ get_piece_count_features b ⊆ extract_board_features b
  /\ get_king_safety_features b ⊆ extract_board_features b
  /\ get_mobility_features b ⊆ extract_board_features b
  /\ get_game_state_features b ⊆ extract_board_features b
  /\ size (extract_board_features b) = 22%nat.
Proof.
  split_and!.
  - apply material_in_features.
  - apply piece_count_in_features.
  - apply king_safety_in_features.
  - apply mobility_in_features.
  - apply game_state_in_features.
  - rewrite <- size_dom, dom_extract_board_features. apply size_feature_keys.
Qed.

(** X5 -- every value of the extracted mapping is an integer; in a row of
    the dataset the only value that is not one is the 0.5 of the field
    [result]. *)
Theorem X5_values_are_integers `{E : RulesEngine} :
  (forall (b : Board) (k : string) (v : Num),
     extract_board_features b !! k = Some v -> exists z : Z, v = Int z)
  /\ (forall (stream : list Game) (target_move : Z) (max_games : option Z)
             (row : gmap string Num) (k : string) (v : Num),
        row ∈ process_pgn_file stream target_move max_games ->
        row !! k = Some v ->
        (exists z : Z, v = Int z) \/ (k = "result" /\ v = Half)).
Proof.
  split; [apply features_are_integers|].
  intros stream target_move max_games row k v Hrow Hk.
  apply row_origin in Hrow as (game & target & w & b & _ & Ht & _ & _ & _ & ->).
  unfold row_of in Hk.
  apply lookup_insert_Some in Hk as [[<- <-]|[_ Hk]].
  { apply target_of_Some in Ht as [[_ ->]|[[_ ->]|[_ ->]]]; eauto. }
  repeat (apply lookup_insert_Some in Hk as [[<- <-]|[_ Hk]]; [eauto|]).
  left. by apply features_are_integers in Hk.
Qed.

(** X6 -- for a king on any square but a1 the two king-safety features
    of its color are computed from its square: the number of pieces of
    the other color the engine reports as attacking it, and the sum of
    what the files of the shield add. *)
Theorem X6_king_safety_off_a1 `{E : RulesEngine} (b : Board) (c : Color) (ksq : Square) :
  king b c = Some ksq -> ksq <> 0 ->
  piece_at b ksq = Some (mkPiece KING c)
  /\ 0 < ksq < 64
  /\ extract_board_features b !! (color_name c +:+ "_king_attackers")
     = Some (Int (Z.of_nat (length (attackers b (opposite c) ksq))))
  /\ extract_board_features b !! (color_name c +:+ "_pawn_shield")
     = Some (Int (sum (map (file_shield b c (square_rank ksq)) (shield_files ksq)))).
Proof.
  intros Hk Hne. pose proof (king_Some b c ksq Hk) as [Hrange Hholds].
  destruct (king_safety_with_king b c ksq Hk Hne) as [Ha Hs].
  rewrite pawn_shield_from_eq in Hs.
  split_and!; [by apply holds_true|lia|lia|exact Ha|exact Hs].
Qed.

(** X7 -- at the edges of the board the scan is clipped: a white king on
    the eighth rank and a black king on the first rank have nothing ahead
    and a pawn shield of 0, whatever stands beside or behind them; a king
    on the a-file or the h-file has a pawn shield of at most 2, the file
    beyond the edge being left out. *)
Theorem X7_shield_at_the_edges `{E : RulesEngine} (b : Board) (c : Color) (ksq : Square) :
  king b c = Some ksq ->
  (square_rank ksq = match c with WHITE => 7 | BLACK => 0 end ->
   extract_board_features b !! (color_name c +:+ "_pawn_shield") = Some (Int 0))
  /\ (square_file ksq = 0 \/ square_file ksq = 7 ->
      exists n : Z,
        extract_board_features b !! (color_name c +:+ "_pawn_shield") = Some (Int n)
        /\ 0 <= n <= 2).
Proof.
  intros Hk. destruct (lookup_king_safety b c) as [_ ->].
  unfold pawn_shield_value. rewrite Hk. split.
  - intros Hrank. destruct (ksq =? 0); [reflexivity|].
    by rewrite pawn_shield_last_rank.
  - intros Hfile. eexists. split; [reflexivity|].
    destruct (ksq =? 0); [lia|]. rewrite pawn_shield_from_eq.
    pose proof (sum_file_shield_range b c (square_rank ksq) (shield_files ksq)).
    pose proof (shield_files_edge ksq Hfile). lia.
Qed.

(** X8 -- the pawn shield of a color depends on the board only through
    the square of its king and the squares of its pawns: two positions
    that agree on these have the same pawn-shield feature, whatever the
    other pieces are and wherever they stand. *)
Theorem X8_shield_sees_only_own_pawns `{E : RulesEngine} (b b' : Board) (c : Color) :
  king b c = king b' c ->
  pieces b PAWN c = pieces b' PAWN c ->
  extract_board_features b !! (color_name c +:+ "_pawn_shield")
  = extract_board_features b' !! (color_name c +:+ "_pawn_shield").
Proof.
  intros Hking Hpawns.
  destruct (lookup_king_safety b c) as [_ ->].
  destruct (lookup_king_safety b' c) as [_ ->].
  unfold pawn_shield_value. rewrite Hking.
  destruct (king b' c) as [ksq|] eqn:Hk; [|reflexivity].
  destruct (ksq =? 0); [reflexivity|].
  apply king_Some in Hk as [Hrange _].
  by rewrite (pawn_shield_from_ext b b' c ksq Hrange Hpawns).
Qed.

(** X9 -- the side-to-move feature is 1 when white is to move and 0 when
    black is; the check, checkmate and stalemate features are 1 or 0 as
    the engine answers yes or no; the mobility feature is the engine's
    count of legal moves. *)
Theorem X9_indicators `{E : RulesEngine} (b : Board) :
  exists tm ck cm sm : Z,
    extract_board_features b !! "to_move" = Some (Int tm)
    /\ extract_board_features b !! "is_check" = Some (Int ck)
    /\ extract_board_features b !! "is_checkmate" = Some (Int cm)
    /\ extract_board_features b !! "is_stalemate" = Some (Int sm)
    /\ extract_board_features b !! "legal_moves" = Some (Int (legal_moves_count b))
    /\ (tm = 1 /\ turn b = WHITE \/ tm = 0 /\ turn b = BLACK)
    /\ (ck = 1 /\ is_check b = true \/ ck = 0 /\ is_check b = false)
    /\ (cm = 1 /\ is_checkmate b = true \/ cm = 0 /\ is_checkmate b = false)
    /\ (sm = 1 /\ is_stalemate b = true \/ sm = 0 /\ is_stalemate b = false).
Proof.
  exists (if Color_eqb (turn b) WHITE then 1 else 0),
         (int_of_bool (is_check b)), (int_of_bool (is_checkmate b)),
         (int_of_bool (is_stalemate b)).
  rewrite extract_board_features_eq. split_and!; try reflexivity.
  - destruct (turn b); cbn; auto.
  - destruct (is_check b); cbn; auto.
  - destruct (is_checkmate b); cbn; auto.
  - destruct (is_stalemate b); cbn; auto.
Qed.

(** * Further properties of the game scanner *)

Section MoreScannerFacts.
Context `{E : RulesEngine}.

Lemma length_omap_le {A B} (f : A -> option B) (l : list A) :
(length (omap f l) <= length l)%nat.
Proof.
induction l as [|a l IH]; [reflexivity|].
cbn [omap list_omap length]. destruct (f a); cbn [length]; lia.
Qed.

(** No key of the extracted mapping is one of the four fields the scanner
    adds. *)
Lemma feature_not_metadata (b : Board) (k : string) (v : Num) :
extract_board_features b !! k = Some v ->
k <> "white_elo" /\ k <> "black_elo" /\ k <> "elo_diff" /\ k <> "result".
Proof.
intros Hk.
split_and!; intros ->; rewrite features_lack_metadata in Hk;
  solve [discriminate Hk | vm_compute; reflexivity].
Qed.

Lemma features_in_row (b : Board) (white_elo black_elo : Z) (target : Num) :
extract_board_features b ⊆ row_of (extract_board_features b) white_elo black_elo target.
Proof.
apply map_subseteq_spec. intros k v Hk.
destruct (feature_not_metadata b k v Hk) as (H1 & H2 & H3 & H4).
unfold row_of. by rewrite !lookup_insert_ne.
Qed.

(** Without moves to apply the snapshot is the starting position. *)
Lemma snapshot_nonpositive (target_move : Z) (game : Game) :
target_move <= 0 -> snapshot target_move game = board game.
Proof.
intros Ht. unfold snapshot.
replace (Z.to_nat (target_move * 2)) with 0%nat by lia. reflexivity.
Qed.

(** A negative cap is reached by the first row. *)
Lemma scan_negative_cap (target_move cap : Z) (stream : list Game) :
cap < 0 ->
forall data n, 0 <= n ->
  fst (scan target_move (Some cap) stream data n)
  = data ++ take 1 (omap (process_game target_move) stream).
Proof.
intros Hcap. induction stream as [|g stream IH]; intros data n Hn; cbn [scan].
- cbn. by rewrite app_nil_r.
- assert (truthy_opt (Some cap) = true) as ->
      by (cbn; destruct (Z.eqb_spec cap 0); [lia|done]).
  cbn [andb default from_option id omap list_omap].
  destruct (process_game target_move g) as [row|]; [|by apply IH].
  destruct (Z.geb_spec (n + 1) cap) as [_|Hlt]; [reflexivity|lia].
Qed.

(** The row of a game depends on its headers only through [Result],
    [WhiteElo] and [BlackElo], and on its moves only through the first
    [2 * target_move] of them and whether there are that many. *)
Lemma process_game_ext (target_move : Z) (game game' : Game) :
headers game' !! "Result" = headers game !! "Result" ->
headers game' !! "WhiteElo" = headers game !! "WhiteElo" ->
headers game' !! "BlackElo" = headers game !! "BlackElo" ->
board game' = board game ->
take (Z.to_nat (target_move * 2)) (mainline_moves game')
= take (Z.to_nat (target_move * 2)) (mainline_moves game) ->
(target_move * 2 <= Z.of_nat (length (mainline_moves game'))
 <-> target_move * 2 <= Z.of_nat (length (mainline_moves game))) ->
process_game target_move game' = process_game target_move game.
Proof.
intros Hr Hw Hb Hboard Htake Hlen.
unfold process_game, get. rewrite Hr, Hw, Hb, !replay_from_start.
assert (snapshot target_move game' = snapshot target_move game) as ->
    by (unfold snapshot; by rewrite Htake, Hboard).
assert ((Z.of_nat (Nat.min (Z.to_nat (target_move * 2)) (length (mainline_moves game')))
         <? target_move * 2)
        = (Z.of_nat (Nat.min (Z.to_nat (target_move * 2)) (length (mainline_moves game)))
           <? target_move * 2)) as ->.
{ destruct (Z.ltb_spec
              (Z.of_nat (Nat.min (Z.to_nat (target_move * 2))
                                 (length (mainline_moves game'))))
              (target_move * 2)),
           (Z.ltb_spec
              (Z.of_nat (Nat.min (Z.to_nat (target_move * 2))
                                 (length (mainline_moves game))))
              (target_move * 2)); try reflexivity; lia. }
reflexivity.
Qed.

End MoreScannerFacts.

(** X10 -- every row of the dataset carries the two ratings read from the
    headers of its game and, as [elo_diff], the white rating minus the
    black one. *)
Theorem X10_rating_fields `{E : RulesEngine}
    (stream : list Game) (target_move : Z) (max_games : option Z) (row : gmap string Num) :
  row ∈ process_pgn_file stream target_move max_games ->
  exists (game : Game) (white_elo black_elo : Z),
    game ∈ stream
    /\ rating (headers game) "WhiteElo" white_elo
    /\ rating (headers game) "BlackElo" black_elo
    /\ row !! "white_elo" = Some (Int white_elo)
    /\ row !! "black_elo" = Some (Int black_elo)
    /\ row !! "elo_diff" = Some (Int (white_elo - black_elo)).
Proof.
  intros Hrow.
  apply row_origin in Hrow as (game & target & w & b & Hin & _ & Hw & Hb & _ & ->).
  destruct (lookup_elos (extract_board_features (snapshot target_move game)) w b target)
    as (Hlw & Hlb & Hld).
  exists game, w, b. split_and!; done.
Qed.

(** X11 -- the four fields the scanner adds overwrite no feature: every
    row of the dataset contains the whole mapping extracted from the
    snapshot of its game, and has 26 entries. *)
Theorem X11_features_kept_in_row `{E : RulesEngine}
    (stream : list Game) (target_move : Z) (max_games : option Z) (row : gmap string Num) :
  row ∈ process_pgn_file stream target_move max_games ->
  size row = 26%nat
  /\ exists game : Game,
       game ∈ stream
       /\ extract_board_features (snapshot target_move game) ⊆ row.
Proof.
  intros Hrow.
  apply row_origin in Hrow as (game & target & w & b & Hin & _ & _ & _ & _ & ->).
  split.
  - rewrite <- size_dom, dom_row_of, dom_extract_board_features. apply size_row_keys.
  - exists game. split; [done|]. apply features_in_row.
Qed.

(** X12 -- without a cap the dataset is the rows of all the qualifying
    games, the whole stream is read, and scanning two streams one after
    the other gives the two datasets one after the other; an empty stream
    gives an empty dataset. *)
Theorem X12_uncapped_scan `{E : RulesEngine} (s1 s2 : list Game) (target_move : Z) :
  process_pgn_file s1 target_move None = omap (process_game target_move) s1
  /\ unread s1 target_move None = []
  /\ process_pgn_file (s1 ++ s2) target_move None
     = process_pgn_file s1 target_move None ++ process_pgn_file s2 target_move None
  /\ process_pgn_file [] target_move None = [].
Proof.
  unfold process_pgn_file, unread.
  rewrite !(scan_uncapped target_move None _ eq_refl [] 0). cbn [fst snd app].
  split_and!; try reflexivity. apply omap_app.
Qed.

(** X13 -- whatever the cap, positive, zero, negative or absent, the
    loop reads a prefix of the stream, the dataset is the rows of the
    games read, it is a prefix of the dataset obtained without a cap, and
    it has no more rows than the stream has games. *)
Theorem X13_cap_gives_a_prefix `{E : RulesEngine}
    (stream : list Game) (target_move : Z) (max_games : option Z) :
  (exists read : list Game,
     stream = read ++ unread stream target_move max_games
     /\ process_pgn_file stream target_move max_games
        = omap (process_game target_move) read)
  /\ process_pgn_file stream target_move max_games
     `prefix_of` process_pgn_file stream target_move None
  /\ (length (process_pgn_file stream target_move max_games) <= length stream)%nat.
Proof.
  unfold process_pgn_file at 3. rewrite (scan_uncapped target_move None _ eq_refl [] 0).
  cbn [fst app].
  destruct (scan_prefix target_move max_games stream [] 0) as (read & Hread & Hdata).
  cbn [app] in Hdata.
  change (fst (scan target_move max_games stream [] 0))
    with (process_pgn_file stream target_move max_games) in Hdata.
  change (snd (scan target_move max_games stream [] 0))
    with (unread stream target_move max_games) in Hread.
  assert (omap (process_game target_move) stream
          = process_pgn_file stream target_move max_games
            ++ omap (process_game target_move) (unread stream target_move max_games))
    as Hall by (rewrite Hdata, <- omap_app, <- Hread; reflexivity).
  split_and!.
  - by exists read.
  - rewrite Hall.
    by exists (omap (process_game target_move) (unread stream target_move max_games)).
  - pose proof (length_omap_le (process_game target_move) stream) as Hle.
    rewrite Hall, length_app in Hle. lia.
Qed.

(** X14 -- a negative cap is not refused and does not disable the cap: it
    is reached by the first row, so the dataset is the first row of the
    uncapped dataset, if there is one. *)
Theorem X14_negative_cap `{E : RulesEngine}
    (stream : list Game) (target_move max_games : Z) :
  max_games < 0 ->
  process_pgn_file stream target_move (Some max_games)
  = take 1 (process_pgn_file stream target_move None)
  /\ (length (process_pgn_file stream target_move (Some max_games)) <= 1)%nat.
Proof.
  intros Hneg. unfold process_pgn_file.
  rewrite (scan_negative_cap target_move max_games stream Hneg [] 0) by lia.
  rewrite (scan_uncapped target_move None _ eq_refl [] 0). cbn [fst app].
  split; [reflexivity|]. rewrite length_take. lia.
Qed.

(** X15 -- with a target of 0 or less no move is applied and no game is
    too short: the replay leaves the starting position, the moves of the
    game do not matter, and a game gives a row exactly when its result and
    ratings pass, extracted from the starting position. *)
Theorem X15_nonpositive_target `{E : RulesEngine} (target_move : Z) (game : Game) :
  target_move <= 0 ->
  replay target_move (mainline_moves game) (board game) 0 = (board game, 0)
  /\ process_game target_move game = process_game target_move (with_moves game [])
  /\ (forall row : gmap string Num,
        process_game target_move game = Some row <->
        exists (target : Num) (white_elo black_elo : Z),
          target_of (get (headers game) "Result" "*") = Some target
          /\ rating (headers game) "WhiteElo" white_elo
          /\ rating (headers game) "BlackElo" black_elo
          /\ row = row_of (extract_board_features (board game))
                          white_elo black_elo target).
Proof.
  intros Ht. split_and!.
  - rewrite replay_from_start, snapshot_nonpositive by done.
    replace (Z.to_nat (target_move * 2)) with 0%nat by lia. reflexivity.
  - symmetry. apply process_game_ext; try reflexivity.
    + replace (Z.to_nat (target_move * 2)) with 0%nat by lia. reflexivity.
    + cbn [with_moves mainline_moves length]. lia.
  - intros row. rewrite process_game_Some, snapshot_nonpositive by done.
    split.
    + intros (target & w & b & H1 & H2 & H3 & _ & H5). by exists target, w, b.
    + intros (target & w & b & H1 & H2 & H3 & H5). exists target, w, b.
      split_and!; try done. lia.
Qed.

(** X16 -- the moves after the snapshot are never looked at: a game that
    has its [2 * target_move] moves gives the same row, or none, whatever
    moves follow them. *)
Theorem X16_later_moves_ignored `{E : RulesEngine}
    (target_move : Z) (game : Game) (later : list Move) :
  target_move * 2 <= Z.of_nat (length (mainline_moves game)) ->
  process_game target_move (with_moves game (mainline_moves game ++ later))
  = process_game target_move game.
Proof.
  intros Hlen. apply process_game_ext; try reflexivity.
  - cbn [with_moves mainline_moves]. apply take_app_le. lia.
  - cbn [with_moves mainline_moves]. rewrite length_app. lia.
Qed.


(** * The further properties at work *)

(** The row of the sample game [game_a], and its place in the dataset of
    the three sample games. *)
Lemma game_a_row :
  @process_game engine 20 game_a
  = Some (row_of (@extract_board_features engine (@snapshot engine 20 game_a))
                 1500 1480 (Int 1)).
Proof.
  apply process_game_Some. exists (Int 1), 1500, 1480. split_and!.
  - vm_compute. reflexivity.
  - exists "1500". split_and!; [reflexivity|done|done|vm_compute; reflexivity].
  - exists "1480". split_and!; [reflexivity|done|done|vm_compute; reflexivity].
  - vm_compute. discriminate.
  - reflexivity.
Defined.

Lemma game_a_row_in_dataset :
  row_of (@extract_board_features engine (@snapshot engine 20 game_a)) 1500 1480 (Int 1)
  ∈ @process_pgn_file engine three_games 20 None.
Proof.
  unfold process_pgn_file.
  rewrite (scan_uncapped (E:=engine) 20 None three_games eq_refl [] 0). cbn [fst app].
  apply list_elem_of_omap. exists game_a. split; [apply list_elem_of_here|].
  exact game_a_row.
Defined.

(** A king on a2 with pawns on a3, b3 and h3: the pawn on the h-file is
    not next to the a-file, and the shield is 2. *)
Example king_on_a2_shield :
  king king_on_a2 WHITE = Some 8
  /\ @extract_board_features engine king_on_a2 !! "white_pawn_shield" = Some (Int 2).
Proof.
  assert (king king_on_a2 WHITE = Some 8) as Hk by (vm_compute; reflexivity).
  split; [exact Hk|].
  destruct (king_safety_with_king (E:=engine) king_on_a2 WHITE 8 Hk) as [_ Hs]; [lia|].
  change (color_name WHITE +:+ "_pawn_shield") with "white_pawn_shield" in Hs.
  rewrite Hs. assert (pawn_shield_from king_on_a2 WHITE 8 = 2) as ->
      by (vm_compute; reflexivity).
  reflexivity.
Qed.

Lemma X1_witness :
  PAWN <> KING
  /\ @extract_board_features engine starting_board !! count_key WHITE PAWN
     = Some (Int (count starting_board PAWN WHITE))
  /\ 0 <= count starting_board PAWN WHITE <= 64.
Proof.
  assert (PAWN <> KING) as Hpt by discriminate.
  split; [exact Hpt|].
  destruct (X1_piece_counts (E:=engine) starting_board WHITE PAWN Hpt)
    as (Hl & Hr & _).
  split; [exact Hl | exact Hr].
Defined.

Lemma X5_witness :
  @extract_board_features engine starting_board !! "white_material" = Some (Int 39)
  /\ exists z : Z, Int 39 = Int z.
Proof.
  assert (@extract_board_features engine starting_board !! "white_material"
          = Some (Int 39)) as H39.
  { destruct (lookup_material (E:=engine) starting_board) as (-> & _ & _).
    assert (material starting_board WHITE = 39) as -> by (vm_compute; reflexivity).
    reflexivity. }
  split; [exact H39|].
  destruct (X5_values_are_integers (E:=engine)) as [Hint _].
  exact (Hint starting_board "white_material" (Int 39) H39).
Defined.

Lemma X6_witness :
  king starting_board WHITE = Some 4 /\ 4 <> 0
  /\ piece_at starting_board 4 = Some (mkPiece KING WHITE)
  /\ @extract_board_features engine starting_board !! "white_king_attackers"
     = Some (Int (Z.of_nat (length (@attackers engine starting_board BLACK 4)))).
Proof.
  assert (king starting_board WHITE = Some 4) as Hk by (vm_compute; reflexivity).
  assert (4 <> 0) as Hne by lia.
  split; [exact Hk|]. split; [exact Hne|].
  destruct (X6_king_safety_off_a1 (E:=engine) starting_board WHITE 4 Hk Hne)
    as (Hp & _ & Ha & _).
  split; [exact Hp | exact Ha].
Defined.

Lemma X7_witness :
  king king_on_h8 WHITE = Some 63 /\ square_rank 63 = 7
  /\ @extract_board_features engine king_on_h8 !! "white_pawn_shield" = Some (Int 0).
Proof.
  assert (king king_on_h8 WHITE = Some 63) as Hk by (vm_compute; reflexivity).
  assert (square_rank 63 = 7) as Hrank by reflexivity.
  split; [exact Hk|]. split; [exact Hrank|].
  destruct (X7_shield_at_the_edges (E:=engine) king_on_h8 WHITE 63 Hk) as [Hlast _].
  exact (Hlast Hrank).
Defined.

Lemma X8_witness :
  king starting_board WHITE = king after_Nf3 WHITE
  /\ pieces starting_board PAWN WHITE = pieces after_Nf3 PAWN WHITE
  /\ @extract_board_features engine starting_board !! "white_pawn_shield"
     = @extract_board_features engine after_Nf3 !! "white_pawn_shield".
Proof.
  assert (king starting_board WHITE = king after_Nf3 WHITE) as Hk
      by (vm_compute; reflexivity).
  assert (pieces starting_board PAWN WHITE = pieces after_Nf3 PAWN WHITE) as Hp
      by (vm_compute; reflexivity).
  split; [exact Hk|]. split; [exact Hp|].
  exact (X8_shield_sees_only_own_pawns (E:=engine) starting_board after_Nf3 WHITE Hk Hp).
Defined.

Lemma X10_witness :
  exists row : gmap string Num,
    row ∈ @process_pgn_file engine three_games 20 None
    /\ exists white_elo black_elo : Z,
         row !! "white_elo" = Some (Int white_elo)
         /\ row !! "black_elo" = Some (Int black_elo)
         /\ row !! "elo_diff" = Some (Int (white_elo - black_elo)).
Proof.
  eexists. split; [exact game_a_row_in_dataset|].
  destruct (X10_rating_fields (E:=engine) three_games 20 None _ game_a_row_in_dataset)
    as (game & w & b & _ & _ & _ & Hw & Hb & Hd).
  exists w, b. split; [exact Hw|]. split; [exact Hb | exact Hd].
Defined.

Lemma X11_witness :
  exists row : gmap string Num,
    row ∈ @process_pgn_file engine three_games 20 None /\ size row = 26%nat.
Proof.
  eexists. split; [exact game_a_row_in_dataset|].
  destruct (X11_features_kept_in_row (E:=engine) three_games 20 None _
              game_a_row_in_dataset) as [Hsize _].
  exact Hsize.
Defined.

Lemma X14_witness :
  -3 < 0
  /\ (length (@process_pgn_file engine three_games 20%Z (Some (-3)%Z)) <= 1)%nat.
Proof.
  assert (-3 < 0) as Hneg by lia.
  split; [exact Hneg|].
  destruct (X14_negative_cap (E:=engine) three_games 20 (-3) Hneg) as [_ Hlen].
  exact Hlen.
Defined.

Lemma X15_witness :
  0 <= 0
  /\ @process_game engine 0 game_short
     = @process_game engine 0 (@with_moves engine game_short []).
Proof.
  assert (0 <= 0) as Ht by lia.
  split; [exact Ht|].
  destruct (X15_nonpositive_target (E:=engine) 0 game_short Ht) as (_ & Hsame & _).
  exact Hsame.
Defined.

Lemma X16_witness :
  20 * 2 <= Z.of_nat (length (@mainline_moves engine game_a))
  /\ @process_game engine 20 game_a_longer = @process_game engine 20 game_a.
Proof.
  assert (20 * 2 <= Z.of_nat (length (@mainline_moves engine game_a))) as Hlen
      by (vm_compute; discriminate).
  split; [exact Hlen|].
  exact (X16_later_moves_ignored (E:=engine) 20 game_a shuffle Hlen).
Defined.

